(** * BayesianAstro: the embedded Julia runtime bridge

    A shallow embedding of [JuliaRuntime] (cpp/src/JuliaRuntime.cpp,
    cpp/include/JuliaRuntime.h) and of the part of [BayesianAstroInstance]
    that drives it (cpp/src/BayesianAstroInstance.cpp).

    Member functions of the singleton become computations in a state monad
    over a [Process] record that holds the singleton's fields, the state of
    the embedded interpreter, the process environment, the host-side state a
    progress callback may touch, and a trace of every call that leaves the
    C++ code (libjulia calls, [putenv], [stderr] writes, callback
    invocations).  libjulia itself is an interface ([LibJulia]): every result
    below holds for any implementation of it. *)

From Stdlib Require Import ZArith List String Ascii Bool Lia DecimalString.
Import ListNotations.

Local Open Scope Z_scope.
Local Open Scope string_scope.

(** ** Characters and strings *)

(** The double quote and the backslash, by code point. *)
Definition quote_char : ascii := "034"%char.
Definition backslash_char : ascii := "092"%char.
Definition newline_char : ascii := "010"%char.
Definition nul_char : ascii := "000"%char.

Definition dq : string := String quote_char EmptyString.
Definition nl : string := String newline_char EmptyString.

(** [std::string(const char* )] and [jl_eval_string(const char* )] read a C
    string: everything from the first NUL byte on is dropped. *)
Fixpoint c_str (s : string) : string :=
  match s with
  | EmptyString => EmptyString
  | String c rest =>
      if Ascii.eqb c nul_char then EmptyString else String c (c_str rest)
  end.

(** [operator<<(std::ostream&, int)]: decimal digits, a leading minus sign
    for negative numbers. *)
Definition show_int (z : Z) : string := NilZero.string_of_int (Z.to_int z).

(** [std::string::empty]. *)
Definition empty (s : string) : bool :=
  match s with EmptyString => true | String _ _ => false end.

(** The C++ [float] type is kept abstract; only its default value in
    [ProcessingResult] and its two printers are used. *)
Class CxxFloat (float : Type) : Type := {
  float_zero : float;                  (* 0.0f *)
  show_float : float -> string;        (* operator<<(std::ostream&, float) *)
  format_3f : float -> string          (* String().Format("%.3f", x) *)
}.

(** 32-bit two's complement wrap-around of [int] / [pcl_enum] arithmetic. *)
Definition wrap_int32 (z : Z) : Z := (z + 2^31) mod 2^32 - 2^31.

(** ** JuliaRuntime.h: the data model *)

Module FusionStrategy.
(** [enum class FusionStrategy : int] (mirrors Julia).  The enumeration has a
    fixed underlying type, so it can hold any [int]; the named values are: *)
Definition t : Type := Z.
Definition MLE : t := 1.
Definition ConfidenceWeighted : t := 2.
Definition Lucky : t := 3.
Definition MultiScale : t := 4.
End FusionStrategy.

Record ProcessingConfig (float : Type) : Type := mkProcessingConfig {
  fusionStrategy : FusionStrategy.t;
  confidenceThreshold : float;
  outlierSigma : float;
  tileSizeX : Z;
  tileSizeY : Z;
  useGPU : bool
}.
Arguments mkProcessingConfig {float}.
Arguments fusionStrategy {float}.
Arguments confidenceThreshold {float}.
Arguments outlierSigma {float}.
Arguments tileSizeX {float}.
Arguments tileSizeY {float}.
Arguments useGPU {float}.

Record ProcessingResult (float : Type) : Type := mkProcessingResult {
  success : bool;
  errorMessage : string;
  fusedImagePath : string;
  confidenceMapPath : string;
  totalPixels : Z;
  meanConfidence : float;
  gaussianPixels : Z;
  poissonPixels : Z;
  bimodalPixels : Z;
  artifactPixels : Z
}.
Arguments mkProcessingResult {float}.
Arguments success {float}.
Arguments errorMessage {float}.
Arguments fusedImagePath {float}.
Arguments confidenceMapPath {float}.
Arguments totalPixels {float}.
Arguments meanConfidence {float}.
Arguments gaussianPixels {float}.
Arguments poissonPixels {float}.
Arguments bimodalPixels {float}.
Arguments artifactPixels {float}.

(** ** Everything that leaves the C++ code *)

Inductive event : Type :=
| Ev_putenv (entry : string)
| Ev_jl_init
| Ev_jl_is_initialized
| Ev_jl_eval_string (cmd : string)
| Ev_jl_exception_occurred
| Ev_jl_exception_clear
| Ev_jl_atexit_hook (status : Z)
| Ev_jl_get_function (name : string)
| Ev_jl_call1
| Ev_jl_is_string
| Ev_jl_string_ptr
| Ev_jl_unbox_bool
| Ev_stderr (text : string)
| Ev_progress (percent : Z) (status : string).

(** Calls into libjulia. *)
Definition is_foreign_call (e : event) : bool :=
  match e with
  | Ev_putenv _ | Ev_stderr _ | Ev_progress _ _ => false
  | _ => true
  end.

(** Invocations of the progress callback. *)
Definition is_progress (e : event) : bool :=
  match e with Ev_progress _ _ => true | _ => false end.

(** Interpreter teardown. *)
Definition is_teardown (e : event) : bool :=
  match e with Ev_jl_atexit_hook _ => true | _ => false end.

(** ** libjulia, as seen through julia.h

    [J] is the state of the embedded interpreter, [V] the Julia values a
    non-null [jl_value_t*] can point to; a pointer that may be NULL is an
    [option V]. *)

Inductive jl_module (V : Type) : Type :=
| jl_base_module                      (* the global jl_base_module *)
| jl_module_ptr (p : option V).       (* a (jl_module_t* ) cast of a value *)
Arguments jl_base_module {V}.
Arguments jl_module_ptr {V}.

(** An entry of the process environment.  [putenv] stores the pointer it is
    given, not a copy of the text: the entry reads as [entry] while the
    buffer is alive and is a dangling pointer once the buffer is gone. *)
Inductive env_entry : Type :=
| Env_live (entry : string)
| Env_dangling.

Class LibJulia (J V : Type) : Type := {
  jl_init : list env_entry -> J -> J;
  jl_is_initialized : J -> bool;
  jl_eval_string : string -> J -> option V * J;
  jl_exception_occurred : J -> option V;
  jl_exception_clear : J -> J;
  jl_atexit_hook : Z -> J -> J;
  jl_get_function : jl_module V -> string -> J -> option V;
  jl_call1 : option V -> option V -> J -> option V * J;
  jl_is_string : V -> bool;
  jl_string_ptr : V -> string;
  jl_unbox_bool : option V -> bool
}.

(** The one fact about libjulia that the bridge relies on. *)
Class LibJuliaLaws (J V : Type) `{LibJulia J V} : Prop := {
  jl_exception_clear_spec :
    forall j : J, jl_exception_occurred (jl_exception_clear j) = None
}.

(** ** The process state and the monad of member functions *)

Section Runtime.
Context {J V : Type} {libjulia : LibJulia J V}.
Context {H : Type}.
Context {float : Type} {cxx_float : CxxFloat float}.

(** The private fields of the [JuliaRuntime] singleton. *)
Record JuliaRuntime : Type := mkJuliaRuntime {
  m_initialized : bool;
  m_juliaModulePath : string;
  m_processStackFunc : option V;
  m_validateFitsFunc : option V
}.

(** [JuliaRuntime() = default] with the in-class initialisers. *)
Definition JuliaRuntime_default : JuliaRuntime :=
  mkJuliaRuntime false "" None None.

Record Process : Type := mkProcess {
  this : JuliaRuntime;          (* JuliaRuntime::Instance() *)
  julia : J;                    (* the embedded interpreter *)
  environ : list env_entry;     (* entries installed with putenv *)
  current_path : string;        (* std::filesystem::current_path() *)
  host : H;                     (* what a progress callback can reach *)
  trace : list event            (* oldest event first *)
}.

Definition M (A : Type) : Type := Process -> A * Process.

Definition ret {A : Type} (a : A) : M A := fun s => (a, s).

Definition bind {A B : Type} (c : M A) (k : A -> M B) : M B :=
  fun s => let '(a, s') := c s in k a s'.

Notation "x <- c ;; k" := (bind c (fun x => k))
  (at level 61, c at next level, right associativity).
Notation "c ;;; k" := (bind c (fun _ => k))
  (at level 61, right associativity).

Definition emit (e : event) : M unit :=
  fun s => (tt, mkProcess (this s) (julia s) (environ s) (current_path s)
                          (host s) (trace s ++ [e])%list).

(** A libjulia call that reads the interpreter state. *)
Definition query {A : Type} (e : event) (f : J -> A) : M A :=
  emit e ;;; (fun s => (f (julia s), s)).

(** A libjulia call that changes the interpreter state. *)
Definition command {A : Type} (e : event) (f : J -> A * J) : M A :=
  emit e ;;;
  (fun s => (fst (f (julia s)),
             mkProcess (this s) (snd (f (julia s))) (environ s)
                       (current_path s) (host s) (trace s))).

Definition get_this : M JuliaRuntime := fun s => (this s, s).

Definition set_this (r : JuliaRuntime) : M unit :=
  fun s => (tt, mkProcess r (julia s) (environ s) (current_path s)
                          (host s) (trace s)).

Definition set_m_initialized (b : bool) : M unit :=
  r <- get_this ;;
  set_this (mkJuliaRuntime b (m_juliaModulePath r)
                           (m_processStackFunc r) (m_validateFitsFunc r)).

Definition set_m_juliaModulePath (p : string) : M unit :=
  r <- get_this ;;
  set_this (mkJuliaRuntime (m_initialized r) p
                           (m_processStackFunc r) (m_validateFitsFunc r)).

Definition set_cached_functions (f g : option V) : M unit :=
  r <- get_this ;;
  set_this (mkJuliaRuntime (m_initialized r) (m_juliaModulePath r) f g).

(** [putenv(buffer)], with the text the buffer holds at the call. *)
Definition putenv (entry : string) : M unit :=
  emit (Ev_putenv entry) ;;;
  (fun s => (tt, mkProcess (this s) (julia s)
                           (environ s ++ [Env_live entry])%list
                           (current_path s) (host s) (trace s))).

(** The end of the block that declares [std::string envVar]: the string is
    destroyed, and the entry last given to [putenv] pointed into it. *)
Definition destroy_envVar : M unit :=
  fun s => (tt, mkProcess (this s) (julia s)
                          (removelast (environ s) ++ [Env_dangling])%list
                          (current_path s) (host s) (trace s)).

Definition call_jl_init : M unit :=
  fun s => command Ev_jl_init (fun j => (tt, jl_init (environ s) j)) s.

Definition call_jl_is_initialized : M bool :=
  query Ev_jl_is_initialized jl_is_initialized.

Definition call_jl_eval_string (cmd : string) : M (option V) :=
  command (Ev_jl_eval_string (c_str cmd)) (jl_eval_string (c_str cmd)).

Definition call_jl_exception_occurred : M (option V) :=
  query Ev_jl_exception_occurred jl_exception_occurred.

Definition call_jl_exception_clear : M unit :=
  command Ev_jl_exception_clear (fun j => (tt, jl_exception_clear j)).

Definition call_jl_atexit_hook (status : Z) : M unit :=
  command (Ev_jl_atexit_hook status) (fun j => (tt, jl_atexit_hook status j)).

Definition call_jl_get_function (m : jl_module V) (name : string)
  : M (option V) :=
  query (Ev_jl_get_function name) (jl_get_function m name).

Definition call_jl_call1 (f a : option V) : M (option V) :=
  command Ev_jl_call1 (jl_call1 f a).

Definition call_jl_is_string (v : V) : M bool :=
  query Ev_jl_is_string (fun _ => jl_is_string v).

Definition call_jl_string_ptr (v : V) : M string :=
  query Ev_jl_string_ptr (fun _ => jl_string_ptr v).

Definition call_jl_unbox_bool (p : option V) : M bool :=
  query Ev_jl_unbox_bool (fun _ => jl_unbox_bool p).

Definition fprintf_stderr (text : string) : M unit := emit (Ev_stderr text).

Definition is_some {A : Type} (o : option A) : bool :=
  match o with Some _ => true | None => false end.

(** [using ProgressCallback = std::function<void(int, const std::string&)>];
    [None] is the empty function ([nullptr]). *)
Definition ProgressCallback : Type := option (Z -> string -> H -> H).

(** [if (progressCallback) progressCallback(percent, status);] *)
Definition report_progress (cb : ProgressCallback) (percent : Z)
  (status : string) : M unit :=
  match cb with
  | None => ret tt
  | Some f =>
      emit (Ev_progress percent status) ;;;
      (fun s => (tt, mkProcess (this s) (julia s) (environ s)
                               (current_path s) (f percent status (host s))
                               (trace s)))
  end.

(** ** JuliaRuntime.cpp: lifecycle *)

(** [bool IsInitialized() const { return m_initialized; }] *)
Definition IsInitialized : M bool :=
  r <- get_this ;; ret (m_initialized r).

(** [void JuliaRuntime::HandleJuliaException()].  The two [jl_get_function]
    arguments of [jl_call1] are evaluated left to right here; C++ leaves
    their order open and nothing below depends on it. *)
Definition HandleJuliaException : M unit :=
  ex <- call_jl_exception_occurred ;;
  match ex with
  | Some _ =>
      sprint <- call_jl_get_function jl_base_module "sprint" ;;
      showerror <- call_jl_get_function jl_base_module "showerror" ;;
      str <- call_jl_call1 sprint showerror ;;
      match str with
      | Some v =>
          is_str <- call_jl_is_string v ;;
          if is_str then
            text <- call_jl_string_ptr v ;;
            fprintf_stderr ("Julia exception: " ++ c_str text ++ nl)
          else ret tt
      | None => ret tt
      end ;;;
      call_jl_exception_clear
  | None => ret tt
  end.

(** [void JuliaRuntime::Shutdown()] *)
Definition Shutdown : M unit :=
  r <- get_this ;;
  if m_initialized r then
    call_jl_atexit_hook 0 ;;;
    set_m_initialized false
  else ret tt.

(** [bool JuliaRuntime::LoadBayesianAstroModule()] *)
Definition LoadBayesianAstroModule : M bool :=
  r <- get_this ;;
  let loadCmd := "push!(LOAD_PATH, " ++ dq ++ m_juliaModulePath r ++ dq ++ ")" in
  call_jl_eval_string loadCmd ;;;
  ex <- call_jl_exception_occurred ;;
  if is_some ex then
    HandleJuliaException ;;; ret false
  else
    call_jl_eval_string "using BayesianAstro" ;;;
    ex <- call_jl_exception_occurred ;;
    if is_some ex then
      HandleJuliaException ;;; ret false
    else
      baModule <- call_jl_eval_string "BayesianAstro" ;;
      match baModule with
      | Some _ =>
          f <- call_jl_get_function (jl_module_ptr baModule) "process_stack" ;;
          g <- call_jl_get_function (jl_module_ptr baModule) "validate_fits" ;;
          set_cached_functions f g
      | None => ret tt
      end ;;;
      ret true.

(** [bool JuliaRuntime::Initialize(const std::string& juliaHome = "")], on
    the runs in which [std::filesystem::current_path()] returns a path,
    [current_path s]; the run in which it throws is
    [Initialize_throwing] below. *)
Definition Initialize (juliaHome : string) : M bool :=
  r <- get_this ;;
  if m_initialized r then ret true
  else
    (if negb (empty juliaHome)
     then putenv (c_str ("JULIA_HOME=" ++ juliaHome)) ;;; destroy_envVar
     else ret tt) ;;;
    call_jl_init ;;;
    started <- call_jl_is_initialized ;;
    if negb started then ret false
    else
      cwd <- (fun s => (current_path s, s)) ;;
      set_m_juliaModulePath (cwd ++ "/julia") ;;;
      loaded <- LoadBayesianAstroModule ;;
      if negb loaded then
        Shutdown ;;; ret false
      else
        set_m_initialized true ;;; ret true.

(** [bool JuliaRuntime::IsGPUAvailable() const] *)
Definition IsGPUAvailable : M bool :=
  r <- get_this ;;
  if negb (m_initialized r) then ret false
  else
    result <- call_jl_eval_string "BayesianAstro.CUDA_AVAILABLE[]" ;;
    ex <- call_jl_exception_occurred ;;
    if is_some ex then ret false
    else call_jl_unbox_bool result.

(** ** JuliaRuntime.cpp: the pipeline invocation *)

(** The loop that streams the input files into [filesArrayCmd], with its
    index [i] and the stream contents [acc]. *)
Fixpoint files_loop (i : nat) (inputFiles : list string) (acc : string)
  : string :=
  match inputFiles with
  | [] => acc
  | f :: rest =>
      let acc := if (0 <? i)%nat then acc ++ ", " else acc in
      files_loop (S i) rest (acc ++ dq ++ f ++ dq)
  end.

Definition filesArrayCmd (inputFiles : list string) : string :=
  files_loop 0 inputFiles "String[" ++ "]".

Definition configCmd (config : ProcessingConfig float) : string :=
  "ProcessingConfig("
  ++ "fusion_strategy=" ++ show_int (fusionStrategy config) ++ ", "
  ++ "confidence_threshold=" ++ show_float (confidenceThreshold config) ++ "f0, "
  ++ "outlier_sigma=" ++ show_float (outlierSigma config) ++ "f0, "
  ++ "tile_size=(" ++ show_int (tileSizeX config) ++ ", "
  ++ show_int (tileSizeY config) ++ "), "
  ++ "use_gpu=" ++ (if useGPU config then "true" else "false")
  ++ ")".

Definition processCmd (outputDirectory outputPrefix : string)
  (config : ProcessingConfig float) : string :=
  "process_directory("
  ++ dq ++ outputDirectory ++ "/" ++ outputPrefix ++ dq ++ ", "
  ++ "config=" ++ configCmd config
  ++ ")".

(** The interpreter as the pipeline command finds it when neither of the two
    marshalling commands has raised. *)
Definition julia_before_pipeline (inputFiles : list string)
  (config : ProcessingConfig float) (j : J) : J :=
  snd (jl_eval_string (c_str (configCmd config))
         (snd (jl_eval_string (c_str (filesArrayCmd inputFiles)) j))).

(** A default-constructed [ProcessingResult], and the assignments that
    [ProcessStack] makes to its fields. *)
Definition ProcessingResult_default : ProcessingResult float :=
  mkProcessingResult false "" "" "" 0 float_zero 0 0 0 0.

Definition set_success (b : bool) (r : ProcessingResult float)
  : ProcessingResult float :=
  mkProcessingResult b (errorMessage r) (fusedImagePath r)
    (confidenceMapPath r) (totalPixels r) (meanConfidence r)
    (gaussianPixels r) (poissonPixels r) (bimodalPixels r) (artifactPixels r).

Definition set_errorMessage (msg : string) (r : ProcessingResult float)
  : ProcessingResult float :=
  mkProcessingResult (success r) msg (fusedImagePath r)
    (confidenceMapPath r) (totalPixels r) (meanConfidence r)
    (gaussianPixels r) (poissonPixels r) (bimodalPixels r) (artifactPixels r).

Definition set_fusedImagePath (p : string) (r : ProcessingResult float)
  : ProcessingResult float :=
  mkProcessingResult (success r) (errorMessage r) p
    (confidenceMapPath r) (totalPixels r) (meanConfidence r)
    (gaussianPixels r) (poissonPixels r) (bimodalPixels r) (artifactPixels r).

Definition set_confidenceMapPath (p : string) (r : ProcessingResult float)
  : ProcessingResult float :=
  mkProcessingResult (success r) (errorMessage r) (fusedImagePath r)
    p (totalPixels r) (meanConfidence r)
    (gaussianPixels r) (poissonPixels r) (bimodalPixels r) (artifactPixels r).

(** [result.success = false; result.errorMessage = msg; return result;] *)
Definition failure (msg : string) (result : ProcessingResult float)
  : ProcessingResult float :=
  set_errorMessage msg (set_success false result).

Definition fused_path (outputDirectory outputPrefix : string) : string :=
  outputDirectory ++ "/" ++ outputPrefix ++ "_fused.fits".

Definition confidence_path (outputDirectory outputPrefix : string) : string :=
  outputDirectory ++ "/" ++ outputPrefix ++ "_confidence.fits".

(** [ProcessingResult JuliaRuntime::ProcessStack(...)] *)
Definition ProcessStack (inputFiles : list string)
  (outputDirectory outputPrefix : string) (config : ProcessingConfig float)
  (progressCallback : ProgressCallback) : M (ProcessingResult float) :=
  let result := ProcessingResult_default in
  r <- get_this ;;
  if negb (m_initialized r) then
    ret (failure "Julia runtime not initialized" result)
  else
    (* Build Julia array of input files *)
    call_jl_eval_string (filesArrayCmd inputFiles) ;;;
    ex <- call_jl_exception_occurred ;;
    if is_some ex then
      HandleJuliaException ;;;
      ret (failure "Failed to create input file list" result)
    else
      (* Build ProcessingConfig in Julia *)
      call_jl_eval_string (configCmd config) ;;;
      ex <- call_jl_exception_occurred ;;
      if is_some ex then
        HandleJuliaException ;;;
        ret (failure "Failed to create processing config" result)
      else
        (* Report progress: starting *)
        report_progress progressCallback 0 "Loading frames..." ;;;
        call_jl_eval_string (processCmd outputDirectory outputPrefix config) ;;;
        ex <- call_jl_exception_occurred ;;
        if is_some ex then
          HandleJuliaException ;;;
          ret (failure "Processing failed - see console for details" result)
        else
          (* Build result paths *)
          let result := set_success true result in
          let result :=
            set_fusedImagePath (fused_path outputDirectory outputPrefix)
                               result in
          let result :=
            set_confidenceMapPath
              (confidence_path outputDirectory outputPrefix) result in
          report_progress progressCallback 100 "Complete" ;;;
          ret result.

End Runtime.

(** ** BayesianAstroParameters.h / BayesianAstroInstance: the host adapter *)

Module BAFusionStrategy.
(** The anonymous enumeration of [class BAFusionStrategy]. *)
Definition MLE : Z := 0.
Definition ConfidenceWeighted : Z := 1.
Definition Lucky : Z := 2.
Definition MultiScale : Z := 3.
Definition NumberOfItems : Z := 4.
Definition Default : Z := ConfidenceWeighted.

(** [IsoString BAFusionStrategy::ElementId(size_type i) const] *)
Definition ElementId (i : Z) : string :=
  if (i =? MLE)%Z then "MLE"
  else if (i =? ConfidenceWeighted)%Z then "ConfidenceWeighted"
  else if (i =? Lucky)%Z then "Lucky"
  else if (i =? MultiScale)%Z then "MultiScale"
  else "".

(** [int BAFusionStrategy::ElementValue(size_type i) const { return int(i); }]:
    the index narrowed to [int]. *)
Definition ElementValue (i : Z) : Z := wrap_int32 i.
End BAFusionStrategy.

(** The parameters of a [BayesianAstroInstance].  A [pcl::String] is kept as
    the bytes that [ToUTF8()] yields. *)
Record BayesianAstroInstance (float : Type) : Type := mkInstance {
  p_fusionStrategy : Z;                 (* pcl_enum *)
  p_inputFiles : list string;
  p_outlierSigma : float;
  p_confidenceThreshold : float;
  p_useGPU : bool;
  p_generateConfidenceMap : bool;
  p_outputDirectory : string;
  p_outputPrefix : string
}.
Arguments mkInstance {float}.
Arguments p_fusionStrategy {float}.
Arguments p_inputFiles {float}.
Arguments p_outlierSigma {float}.
Arguments p_confidenceThreshold {float}.
Arguments p_useGPU {float}.
Arguments p_generateConfidenceMap {float}.
Arguments p_outputDirectory {float}.
Arguments p_outputPrefix {float}.

(** What the host shows: the console and the status monitor. *)
Inductive console_line : Type :=
| WriteLn (text : string)
| CriticalLn (text : string)
| WarningLn (text : string).

Inductive monitor_call : Type :=
| Monitor_Initialize (info : string) (count : Z)
| Monitor_Complete (n : Z).

Record PclHost : Type := mkPclHost {
  console : list console_line;
  monitor : list monitor_call
}.

Definition console_write (l : console_line) (h : PclHost) : PclHost :=
  mkPclHost (console h ++ [l])%list (monitor h).

Definition monitor_do (c : monitor_call) (h : PclHost) : PclHost :=
  mkPclHost (console h) (monitor h ++ [c])%list.

Section HostAdapter.
Context {J V : Type} {libjulia : LibJulia J V}.
Context {float : Type} {cxx_float : CxxFloat float}.

Local Notation "x <- c ;; k" := (bind c (fun x => k))
  (at level 61, c at next level, right associativity).
Local Notation "c ;;; k" := (bind c (fun _ => k))
  (at level 61, right associativity).

Definition on_host (f : PclHost -> PclHost) : @M J V PclHost unit :=
  fun s => (tt, mkProcess (this s) (julia s) (environ s) (current_path s)
                          (f (host s)) (trace s)).

(** [bool BayesianAstroInstance::CanExecuteGlobal(String& whyNot) const];
    [None] stands for [true], [Some whyNot] for [false]. *)
Definition CanExecuteGlobal (inst : BayesianAstroInstance float)
  : @M J V PclHost (option string) :=
  match p_inputFiles inst with
  | [] => ret (Some "No input files specified.")
  | _ :: _ =>
      if empty (p_outputDirectory inst)
      then ret (Some "No output directory specified.")
      else
        init <- IsInitialized ;;
        if negb init then ret (Some "Julia runtime not initialized.")
        else ret None
  end.

(** ExecuteGlobal, "Convert StringList to std::vector". *)
Definition ExecuteGlobal_inputFiles (inst : BayesianAstroInstance float)
  : list string :=
  map c_str (p_inputFiles inst).

(** ExecuteGlobal, "Build config": a default [ProcessingConfig] (tile size
    1024 x 1024) with four fields overwritten.  [p_fusionStrategy + 1] is
    [int] arithmetic. *)
Definition ExecuteGlobal_config (inst : BayesianAstroInstance float)
  : ProcessingConfig float :=
  mkProcessingConfig
    (wrap_int32 (p_fusionStrategy inst + 1))      (* Julia is 1-indexed *)
    (p_confidenceThreshold inst)
    (p_outlierSigma inst)
    1024 1024
    (p_useGPU inst).

(** ExecuteGlobal, "Progress callback". *)
Definition ExecuteGlobal_progressCallback
  : Z -> string -> PclHost -> PclHost :=
  fun percent msg h =>
    console_write (WriteLn (c_str msg)) (monitor_do (Monitor_Complete percent) h).

(** The [ProcessStack] call that ExecuteGlobal issues. *)
Definition ExecuteGlobal_ProcessStack (inst : BayesianAstroInstance float)
  : @M J V PclHost (ProcessingResult float) :=
  ProcessStack (ExecuteGlobal_inputFiles inst)
               (c_str (p_outputDirectory inst))
               (c_str (p_outputPrefix inst))
               (ExecuteGlobal_config inst)
               (Some ExecuteGlobal_progressCallback).

(** [bool BayesianAstroInstance::ExecuteGlobal()] *)
Definition ExecuteGlobal (inst : BayesianAstroInstance float)
  : @M J V PclHost bool :=
  on_host (console_write (WriteLn "<b>BayesianAstro</b>")) ;;;
  on_host (console_write (WriteLn
    ("Processing " ++ show_int (Z.of_nat (List.length (p_inputFiles inst)))
     ++ " frames..."))) ;;;
  on_host (monitor_do (Monitor_Initialize "BayesianAstro" 100)) ;;;
  result <- ExecuteGlobal_ProcessStack inst ;;
  on_host (monitor_do (Monitor_Complete 100)) ;;;
  if negb (success result) then
    on_host (console_write (CriticalLn
      ("** Processing failed: " ++ c_str (errorMessage result)))) ;;;
    ret false
  else
    on_host (console_write (WriteLn
      ("Fused image: " ++ c_str (fusedImagePath result)))) ;;;
    (if p_generateConfidenceMap inst then
       on_host (console_write (WriteLn
         ("Confidence map: " ++ c_str (confidenceMapPath result))))
     else ret tt) ;;;
    on_host (console_write (WriteLn
      ("Mean confidence: " ++ format_3f (meanConfidence result)))) ;;;
    ret true.

End HostAdapter.

(** ** The marshalling contract of the file list, in the spec's words *)

Definition is_special (c : ascii) : bool :=
  Ascii.eqb c quote_char || Ascii.eqb c backslash_char.

(** A path is clean when it has neither a quote nor a backslash. *)
Fixpoint clean (s : string) : bool :=
  match s with
  | EmptyString => true
  | String c rest => negb (is_special c) && clean rest
  end.

(** Follows the spec (4.2, "escaping embedded quote and backslash
    characters"), not the code: each such character gets a backslash in
    front of it. *)
Fixpoint spec_escape (s : string) : string :=
  match s with
  | EmptyString => EmptyString
  | String c rest =>
      if is_special c
      then String backslash_char (String c (spec_escape rest))
      else String c (spec_escape rest)
  end.

(** The sequence literal the spec describes: the escaped paths, each between
    double quotes, separated by a comma and a space. *)
Definition spec_filesArrayCmd (inputFiles : list string) : string :=
  "String["
  ++ String.concat ", " (map (fun f => dq ++ spec_escape f ++ dq) inputFiles)
  ++ "]".

(** [sep] in front of every element: what follows the first element of
    [String.concat sep]. *)
Fixpoint separated (sep : string) (xs : list string) : string :=
  match xs with
  | [] => ""
  | x :: rest => sep ++ x ++ separated sep rest
  end.

(** Reading the body of a string literal from its opening quote on: a
    backslash protects the character after it, the first unprotected quote
    closes the literal.  The result is the text after the closing quote,
    [None] if the literal is not closed. *)
Fixpoint after_literal_body (s : string) : option string :=
  match s with
  | EmptyString => None
  | String c rest =>
      if Ascii.eqb c backslash_char then
        match rest with
        | EmptyString => None
        | String _ rest' => after_literal_body rest'
        end
      else if Ascii.eqb c quote_char then Some rest
      else after_literal_body rest
  end.

(** ** A scripted libjulia for concrete runs

    The interpreter starts iff [can_start]; a command raises iff it begins
    with one of the prefixes in [failing]; [sprint(showerror)] raises a
    MethodError, as it does in Julia. *)

Module Fake.

Inductive value : Type :=
| VBool (b : bool)
| VString (s : string)
| VFunction (name : string)
| VError (what : string).

Record julia : Type := mkJulia {
  started : bool;
  pending : option value      (* the current exception *)
}.

Definition raises (failing : list string) (cmd : string) : bool :=
  existsb (fun p => String.prefix p cmd) failing.

Definition eval_string (failing : list string) (cmd : string) (j : julia)
  : option value * julia :=
  if raises failing cmd
  then (None, mkJulia (started j) (Some (VError cmd)))
  else (Some (VBool true), mkJulia (started j) None).

#[global] Instance api (can_start : bool) (failing : list string)
  : LibJulia julia value := {
  jl_init := fun _ j => mkJulia can_start (pending j);
  jl_is_initialized := started;
  jl_eval_string := eval_string failing;
  jl_exception_occurred := pending;
  jl_exception_clear := fun j => mkJulia (started j) None;
  jl_atexit_hook := fun _ j => mkJulia false (pending j);
  jl_get_function := fun _ name _ => Some (VFunction name);
  jl_call1 := fun _ _ j => (None, mkJulia (started j) (Some (VError "MethodError")));
  jl_is_string := fun v => match v with VString _ => true | _ => false end;
  jl_string_ptr := fun v => match v with VString s => s | _ => "" end;
  jl_unbox_bool := fun p => match p with Some (VBool b) => b | _ => false end
}.

(** Three [float] values with their printed forms. *)
Inductive float : Type := F0 | F0_1 | F3.

#[global] Instance cxx_float : CxxFloat float := {
  float_zero := F0;
  show_float := fun x => match x with F0 => "0" | F0_1 => "0.1" | F3 => "3" end;
  format_3f := fun x =>
    match x with F0 => "0.000" | F0_1 => "0.100" | F3 => "3.000" end
}.

(** A process in which nothing has happened yet. *)
Definition fresh {H : Type} (h : H) : @Process julia value H :=
  mkProcess JuliaRuntime_default (mkJulia false None) [] "/opt/pi" h [].

(** The same process once [Initialize] has succeeded. *)
Definition ready {H : Type} (h : H) : @Process julia value H :=
  snd (Initialize (libjulia := api true []) "" (fresh h)).

Definition default_config : ProcessingConfig float :=
  mkProcessingConfig FusionStrategy.ConfidenceWeighted F0_1 F3 1024 1024 true.

Definition quoted_path : string := "a" ++ dq ++ "b".

Definition instance_of (strategy : Z) (confidence_map : bool)
  : BayesianAstroInstance float :=
  mkInstance strategy ["/data/f1.fits"; "/data/f2.fits"] F3 F0_1 true
             confidence_map "/tmp/x" "run1".

Definition empty_host : PclHost := mkPclHost [] [].

(** Four interpreters: one in which every command succeeds, and three in
    which one kind of command raises. *)
Definition all_good : LibJulia julia value := api true [].
Definition load_fails : LibJulia julia value := api true ["using BayesianAstro"].
Definition pipeline_fails : LibJulia julia value := api true ["process_directory("].
Definition gpu_query_fails : LibJulia julia value :=
  api true ["BayesianAstro.CUDA_AVAILABLE"].

(** A progress callback that records its calls, and the record before the
    first call. *)
Definition no_calls : list (Z * string) := [].

Definition log_progress : Z -> string -> list (Z * string) -> list (Z * string) :=
  fun percent status h => (h ++ [(percent, status)])%list.

End Fake.

(** * The rest of the runtime and of the host adapter *)

(** ** libjulia: the value accessors of the remaining queries

    [jl_is_tuple] is a type-tag test, [jl_get_nth_field] and
    [jl_unbox_int64] read a value; none of them changes the interpreter, and
    the trace keeps no event for them. *)
Class LibJuliaValues (J V : Type) : Type := {
  jl_is_tuple : V -> bool;
  jl_get_nth_field : V -> Z -> option V;
  jl_unbox_int64 : V -> Z
}.

(** [jl_eval_string] calls only. *)
Definition is_eval_string (e : event) : bool :=
  match e with Ev_jl_eval_string _ => true | _ => false end.

(** Evaluated commands and callback invocations: the events whose order
    the progress protocol is about. *)
Definition is_command_or_progress (e : event) : bool :=
  is_eval_string e || is_progress e.

(** The callback invocation that [if (progressCallback)
    progressCallback(percent, status)] makes. *)
Definition progress_calls {H : Type}
  (cb : option (Z -> string -> H -> H)) (percent : Z) (status : string)
  : list event :=
  match cb with
  | Some _ => [Ev_progress percent status]
  | None => []
  end.

(** Interpreter start-up. *)
Definition is_jl_init (e : event) : bool :=
  match e with Ev_jl_init => true | _ => false end.

Section RuntimeQueries.
Context {J V : Type} {libjulia : LibJulia J V} {values : LibJuliaValues J V}.
Context {H : Type}.

Local Notation "x <- c ;; k" := (bind c (fun x => k))
  (at level 61, c at next level, right associativity).
Local Notation "c ;;; k" := (bind c (fun _ => k))
  (at level 61, right associativity).

(** [JuliaRuntime::~JuliaRuntime()] *)
Definition JuliaRuntime_destructor : @M J V H unit := Shutdown.

(** [std::string JuliaRuntime::GetGPUInfo() const].  [jl_is_string] is
    applied to the result without a NULL test: a NULL result with no
    exception pending is a NULL dereference, [None] here. *)
Definition GetGPUInfo : @M J V H (option string) :=
  r <- get_this ;;
  if negb (m_initialized r) then ret (Some "No GPU available")
  else
    gpu <- IsGPUAvailable ;;
    if negb gpu then ret (Some "No GPU available")
    else
      result <- call_jl_eval_string
        ("try; string(CUDA.name(CUDA.device())); catch; "
         ++ dq ++ "Unknown" ++ dq ++ "; end") ;;
      ex <- call_jl_exception_occurred ;;
      if is_some ex then ret (Some "GPU info unavailable")
      else
        match result with
        | None => ret None
        | Some v =>
            is_str <- call_jl_is_string v ;;
            if negb is_str then ret (Some "GPU info unavailable")
            else
              text <- call_jl_string_ptr v ;;
              ret (Some (c_str text))
        end.

(** The command of [ValidateFitsFile]. *)
Definition validateCmd (path : string) : string :=
  "try; FITS(" ++ dq ++ path ++ dq ++ ", " ++ dq ++ "r" ++ dq
  ++ "); true; catch; false; end".

(** [bool JuliaRuntime::ValidateFitsFile(const std::string& path) const] *)
Definition ValidateFitsFile (path : string) : @M J V H bool :=
  r <- get_this ;;
  if negb (m_initialized r) then ret false
  else
    result <- call_jl_eval_string (validateCmd path) ;;
    ex <- call_jl_exception_occurred ;;
    if is_some ex then ret false
    else call_jl_unbox_bool result.

(** The command of [GetImageDimensions]. *)
Definition dimensionsCmd (path : string) : string :=
  "let f = FITS(" ++ dq ++ path ++ dq ++ ", " ++ dq ++ "r" ++ dq ++ "); "
  ++ "sz = size(read(f[1])); close(f); (sz[1], sz[2]); end".

(** [std::pair<int, int> JuliaRuntime::GetImageDimensions(const std::string&)
    const].  The two [int64] fields are narrowed to [int]; NULL where a value
    is dereferenced ([jl_is_tuple], [jl_unbox_int64]) is [None]. *)
Definition GetImageDimensions (path : string) : @M J V H (option (Z * Z)) :=
  r <- get_this ;;
  if negb (m_initialized r) then ret (Some (0, 0))
  else
    result <- call_jl_eval_string (dimensionsCmd path) ;;
    ex <- call_jl_exception_occurred ;;
    if is_some ex then ret (Some (0, 0))
    else
      match result with
      | None => ret None
      | Some v =>
          if negb (jl_is_tuple v) then ret (Some (0, 0))
          else
            match jl_get_nth_field v 0, jl_get_nth_field v 1 with
            | Some f0, Some f1 =>
                let height := wrap_int32 (jl_unbox_int64 f0) in
                let width := wrap_int32 (jl_unbox_int64 f1) in
                ret (Some (width, height))
            | _, _ => ret None
            end
      end.

(** The loop of [BayesianAstroInstance::ValidateInputFiles]: it leaves at
    the first file that does not validate. *)
Fixpoint ValidateInputFiles_loop (files : list string) : @M J V H bool :=
  match files with
  | [] => ret true
  | path :: rest =>
      ok <- ValidateFitsFile (c_str path) ;;
      if negb ok then ret false else ValidateInputFiles_loop rest
  end.

(** [bool BayesianAstroInstance::ValidateInputFiles() const] *)
Definition ValidateInputFiles {float : Type}
  (inst : BayesianAstroInstance float) : @M J V H bool :=
  ValidateInputFiles_loop (p_inputFiles inst).

End RuntimeQueries.

(** ** BayesianAstroInstance: what else the host asks of an instance *)

(** [bool BayesianAstroInstance::CanExecuteOn(const View&, String& whyNot)
    const]: the result and [whyNot]. *)
Definition CanExecuteOn : bool * string :=
  (false, "BayesianAstro operates on files, not views. Use global execution.").

(** [void BayesianAstroInstance::Assign(const ProcessImplementation& p)]:
    [None] is a [p] that is not a [BayesianAstroInstance]. *)
Definition Assign {float : Type} (p : option (BayesianAstroInstance float))
  (self : BayesianAstroInstance float) : BayesianAstroInstance float :=
  match p with
  | Some x =>
      mkInstance (p_fusionStrategy x) (p_inputFiles x) (p_outlierSigma x)
                 (p_confidenceThreshold x) (p_useGPU x)
                 (p_generateConfidenceMap x) (p_outputDirectory x)
                 (p_outputPrefix x)
  | None => self
  end.

(** ** BayesianAstroModule.cpp: installation

    What [InstallPixInsightModule] leaves behind: the console lines and the
    objects it has created with [new], in order. *)
Inductive module_object : Type :=
| New_BayesianAstroModule
| New_BayesianAstroProcess
| New_BayesianAstroInterface.

Record InstallHost : Type := mkInstallHost {
  install_console : list console_line;
  install_objects : list module_object
}.

(** How a call that can throw ends. *)
Inductive outcome (A : Type) : Type :=
| Returned (a : A)
| Thrown.

Arguments Returned {A} a.
Arguments Thrown {A}.

Section Install.
Context {J V : Type} {libjulia : LibJulia J V}.

Local Notation "x <- c ;; k" := (bind c (fun x => k))
  (at level 61, c at next level, right associativity).
Local Notation "c ;;; k" := (bind c (fun _ => k))
  (at level 61, right associativity).

Definition on_install (f : InstallHost -> InstallHost)
  : @M J V InstallHost unit :=
  fun s => (tt, mkProcess (this s) (julia s) (environ s) (current_path s)
                          (f (host s)) (trace s)).

Definition new_object (o : module_object) : @M J V InstallHost unit :=
  on_install (fun h => mkInstallHost (install_console h)
                                     (install_objects h ++ [o])%list).

Definition install_CriticalLn (text : string) : @M J V InstallHost unit :=
  on_install (fun h => mkInstallHost (install_console h ++ [CriticalLn text])%list
                                     (install_objects h)).

Definition install_WarningLn (text : string) : @M J V InstallHost unit :=
  on_install (fun h => mkInstallHost (install_console h ++ [WarningLn text])%list
                                     (install_objects h)).

(** [JuliaRuntime::Initialize] as its caller's [try] block sees it.
    [std::filesystem::current_path()] throws [filesystem_error] when the
    working directory cannot be determined; [current_path_throws] says
    whether it does in this run.  The exception leaves [Initialize] after
    [jl_init()] and the [jl_is_initialized()] test, before
    [m_juliaModulePath] is assigned.  When it does not throw this is
    [Initialize] (lemma [Initialize_throwing_no_throw]). *)
Definition Initialize_throwing (current_path_throws : bool)
  (juliaHome : string) : @M J V InstallHost (outcome bool) :=
  r <- get_this ;;
  if m_initialized r then ret (Returned true)
  else
    (if negb (empty juliaHome)
     then putenv (c_str ("JULIA_HOME=" ++ juliaHome)) ;;; destroy_envVar
     else ret tt) ;;;
    call_jl_init ;;;
    started <- call_jl_is_initialized ;;
    if negb started then ret (Returned false)
    else if current_path_throws then ret Thrown
    else
      cwd <- (fun s => (current_path s, s)) ;;
      set_m_juliaModulePath (cwd ++ "/julia") ;;;
      loaded <- LoadBayesianAstroModule ;;
      if negb loaded then
        Shutdown ;;; ret (Returned false)
      else
        set_m_initialized true ;;; ret (Returned true).

(** [PCL_MODULE_EXPORT int InstallPixInsightModule(int mode)];
    [FullInstall] is [pcl::InstallMode::FullInstall].  The [catch (...)]
    clause runs when [Initialize] throws. *)
Definition InstallPixInsightModule (FullInstall mode : Z)
  (current_path_throws : bool) : @M J V InstallHost Z :=
  new_object New_BayesianAstroModule ;;;
  if (mode =? FullInstall)%Z then
    r <- Initialize_throwing current_path_throws "" ;;
    match r with
    | Returned ok =>
        if negb ok then
          install_CriticalLn
            "** BayesianAstro: Failed to initialize Julia runtime"
        else ret tt
    | Thrown =>
        install_WarningLn "** BayesianAstro: Julia initialization deferred"
    end ;;;
    new_object New_BayesianAstroProcess ;;;
    new_object New_BayesianAstroInterface ;;;
    ret 0
  else ret 0.

End Install.

(** ** BayesianAstroInterface.cpp: the bridge exposed to the UI

    A [QString] is kept as its UTF-8 bytes.  [m_instance] is a pointer to
    the instance of the interface: [None] is the null pointer, [Some inst]
    holds the instance it points to.  The signals emitted so far are kept in
    order. *)
Inductive signal : Type :=
| fusionStrategyChanged
| outlierSigmaChanged
| confidenceThresholdChanged
| useGPUChanged
| generateConfidenceMapChanged
| filesChanged
| progressUpdated (percent : Z) (status : string)
| executionComplete (ok : bool) (message : string).

(** The two [float] literals of the bridge, and [pcl::String(const char* )]
    as the bytes that [ToUTF8()] gives back. *)
Class BridgeTypes (float : Type) : Type := {
  float_3_0 : float;                         (* 3.0f *)
  float_0_1 : float;                         (* 0.1f *)
  String_of_chars : string -> string
}.

Record BayesianAstroBridge (float : Type) : Type := mkBridge {
  m_instance : option (BayesianAstroInstance float);
  emitted : list signal
}.
Arguments mkBridge {float}.
Arguments m_instance {float}.
Arguments emitted {float}.

Section Bridge.
Context {float : Type} {bridge_types : BridgeTypes float}.

Implicit Types (b : BayesianAstroBridge float).

Definition emit_signal (sg : signal) b : BayesianAstroBridge float :=
  mkBridge (m_instance b) (emitted b ++ [sg])%list.

(** [void SetInstance(BayesianAstroInstance* instance)] *)
Definition SetInstance (instance : option (BayesianAstroInstance float)) b
  : BayesianAstroBridge float :=
  mkBridge instance (emitted b).

(** The accessors of [BayesianAstroInstance] that the bridge uses. *)
Definition SetFusionStrategy (v : Z) (x : BayesianAstroInstance float) :=
  mkInstance v (p_inputFiles x) (p_outlierSigma x) (p_confidenceThreshold x)
             (p_useGPU x) (p_generateConfidenceMap x) (p_outputDirectory x)
             (p_outputPrefix x).
Definition SetOutlierSigma (v : float) (x : BayesianAstroInstance float) :=
  mkInstance (p_fusionStrategy x) (p_inputFiles x) v (p_confidenceThreshold x)
             (p_useGPU x) (p_generateConfidenceMap x) (p_outputDirectory x)
             (p_outputPrefix x).
Definition SetConfidenceThreshold (v : float) (x : BayesianAstroInstance float) :=
  mkInstance (p_fusionStrategy x) (p_inputFiles x) (p_outlierSigma x) v
             (p_useGPU x) (p_generateConfidenceMap x) (p_outputDirectory x)
             (p_outputPrefix x).
Definition SetUseGPU (v : bool) (x : BayesianAstroInstance float) :=
  mkInstance (p_fusionStrategy x) (p_inputFiles x) (p_outlierSigma x)
             (p_confidenceThreshold x) v (p_generateConfidenceMap x)
             (p_outputDirectory x) (p_outputPrefix x).
Definition SetGenerateConfidenceMap (v : bool) (x : BayesianAstroInstance float) :=
  mkInstance (p_fusionStrategy x) (p_inputFiles x) (p_outlierSigma x)
             (p_confidenceThreshold x) (p_useGPU x) v (p_outputDirectory x)
             (p_outputPrefix x).
Definition SetInputFiles (v : list string) (x : BayesianAstroInstance float) :=
  mkInstance (p_fusionStrategy x) v (p_outlierSigma x)
             (p_confidenceThreshold x) (p_useGPU x)
             (p_generateConfidenceMap x) (p_outputDirectory x)
             (p_outputPrefix x).
Definition AddInputFile (path : string) (x : BayesianAstroInstance float) :=
  SetInputFiles (p_inputFiles x ++ [path])%list x.
Definition ClearInputFiles (x : BayesianAstroInstance float) :=
  SetInputFiles [] x.
Definition SetOutputDirectory (v : string) (x : BayesianAstroInstance float) :=
  mkInstance (p_fusionStrategy x) (p_inputFiles x) (p_outlierSigma x)
             (p_confidenceThreshold x) (p_useGPU x)
             (p_generateConfidenceMap x) v (p_outputPrefix x).
Definition SetOutputPrefix (v : string) (x : BayesianAstroInstance float) :=
  mkInstance (p_fusionStrategy x) (p_inputFiles x) (p_outlierSigma x)
             (p_confidenceThreshold x) (p_useGPU x)
             (p_generateConfidenceMap x) (p_outputDirectory x) v.

(** [int BayesianAstroBridge::fusionStrategy() const] and the other four
    property readers. *)
Definition fusionStrategy_get b : Z :=
  match m_instance b with Some x => p_fusionStrategy x | None => 1 end.
Definition outlierSigma_get b : float :=
  match m_instance b with Some x => p_outlierSigma x | None => float_3_0 end.
Definition confidenceThreshold_get b : float :=
  match m_instance b with
  | Some x => p_confidenceThreshold x
  | None => float_0_1
  end.
Definition useGPU_get b : bool :=
  match m_instance b with Some x => p_useGPU x | None => true end.
Definition generateConfidenceMap_get b : bool :=
  match m_instance b with Some x => p_generateConfidenceMap x | None => true end.

(** [void BayesianAstroBridge::setFusionStrategy(int value)] *)
Definition setFusionStrategy (value : Z) b : BayesianAstroBridge float :=
  match m_instance b with
  | Some x =>
      if negb (p_fusionStrategy x =? value)%Z then
        emit_signal fusionStrategyChanged
          (mkBridge (Some (SetFusionStrategy value x)) (emitted b))
      else b
  | None => b
  end.

Definition setOutlierSigma (value : float) b : BayesianAstroBridge float :=
  match m_instance b with
  | Some x =>
      emit_signal outlierSigmaChanged
        (mkBridge (Some (SetOutlierSigma value x)) (emitted b))
  | None => b
  end.

Definition setConfidenceThreshold (value : float) b
  : BayesianAstroBridge float :=
  match m_instance b with
  | Some x =>
      emit_signal confidenceThresholdChanged
        (mkBridge (Some (SetConfidenceThreshold value x)) (emitted b))
  | None => b
  end.

Definition setUseGPU (value : bool) b : BayesianAstroBridge float :=
  match m_instance b with
  | Some x =>
      emit_signal useGPUChanged
        (mkBridge (Some (SetUseGPU value x)) (emitted b))
  | None => b
  end.

Definition setGenerateConfidenceMap (value : bool) b
  : BayesianAstroBridge float :=
  match m_instance b with
  | Some x =>
      emit_signal generateConfidenceMapChanged
        (mkBridge (Some (SetGenerateConfidenceMap value x)) (emitted b))
  | None => b
  end.

(** [void BayesianAstroBridge::addFiles(const QStringList& paths)] *)
Definition addFiles (paths : list string) b : BayesianAstroBridge float :=
  match m_instance b with
  | None => b
  | Some x =>
      let x' :=
        fold_left (fun acc path => AddInputFile (String_of_chars (c_str path)) acc)
                  paths x in
      emit_signal filesChanged (mkBridge (Some x') (emitted b))
  end.

(** [void BayesianAstroBridge::removeFile(int index)] *)
Definition removeFile (index : Z) b : BayesianAstroBridge float :=
  emit_signal filesChanged b.

(** [void BayesianAstroBridge::clearFiles()] *)
Definition clearFiles b : BayesianAstroBridge float :=
  match m_instance b with
  | Some x => emit_signal filesChanged
                (mkBridge (Some (ClearInputFiles x)) (emitted b))
  | None => b
  end.

(** [QStringList BayesianAstroBridge::getFiles() const] *)
Definition getFiles b : list string :=
  match m_instance b with
  | Some x => map c_str (p_inputFiles x)
  | None => []
  end.

(** [void BayesianAstroBridge::setOutputDirectory(const QString& path)] *)
Definition setOutputDirectory (path : string) b : BayesianAstroBridge float :=
  match m_instance b with
  | Some x =>
      mkBridge (Some (SetOutputDirectory (String_of_chars (c_str path)) x))
               (emitted b)
  | None => b
  end.

(** [void BayesianAstroBridge::setOutputPrefix(const QString& prefix)] *)
Definition setOutputPrefix (prefix : string) b : BayesianAstroBridge float :=
  match m_instance b with
  | Some x =>
      mkBridge (Some (SetOutputPrefix (String_of_chars (c_str prefix)) x))
               (emitted b)
  | None => b
  end.

(** [void BayesianAstroBridge::reportProgress(int percent,
    const QString& status)] *)
Definition reportProgress (percent : Z) (status : string) b
  : BayesianAstroBridge float :=
  emit_signal (progressUpdated percent status) b.

End Bridge.

Section BridgeExecute.
Context {J V : Type} {libjulia : LibJulia J V}.
Context {float : Type} {cxx_float : CxxFloat float}.

(** [void BayesianAstroBridge::execute()].  [ExecuteGlobal] throws nothing in
    this model, so the two [catch] clauses have no run. *)
Definition execute (b : BayesianAstroBridge float)
  (s : @Process J V PclHost) : BayesianAstroBridge float * @Process J V PclHost :=
  match m_instance b with
  | None => (b, s)
  | Some x =>
      let '(ok, s') := ExecuteGlobal x s in
      (emit_signal
         (executionComplete ok
            (if ok then "Processing complete" else "Processing failed")) b,
       s')
  end.

End BridgeExecute.

(** ** A scripted libjulia that answers the FITS queries

    [dims] is what the dimension query evaluates to ([None]: it raises);
    [valid] is the answer of the validation command for a path. *)

Module FakeFits.

Inductive value : Type :=
| VInt (z : Z)
| VBool (b : bool)
| VPair (a b : value)
| VOther.

Record julia : Type := mkJulia {
  started : bool;
  pending : option value
}.

Definition eval_string (dims : option (Z * Z)) (valid : string -> bool)
  (cmd : string) (j : julia) : option value * julia :=
  if String.prefix "let f = FITS(" cmd then
    match dims with
    | Some (h, w) => (Some (VPair (VInt h) (VInt w)), mkJulia (started j) None)
    | None => (None, mkJulia (started j) (Some VOther))
    end
  else if String.prefix "try; FITS(" cmd then
    (Some (VBool (valid cmd)), mkJulia (started j) None)
  else (Some VOther, mkJulia (started j) None).

#[global] Instance api (dims : option (Z * Z)) (valid : string -> bool)
  : LibJulia julia value := {
  jl_init := fun _ j => mkJulia true (pending j);
  jl_is_initialized := started;
  jl_eval_string := eval_string dims valid;
  jl_exception_occurred := pending;
  jl_exception_clear := fun j => mkJulia (started j) None;
  jl_atexit_hook := fun _ j => mkJulia false (pending j);
  jl_get_function := fun _ _ _ => Some VOther;
  jl_call1 := fun _ _ j => (None, mkJulia (started j) (Some VOther));
  jl_is_string := fun _ => false;
  jl_string_ptr := fun _ => "";
  jl_unbox_bool := fun p => match p with Some (VBool b) => b | _ => false end
}.

#[global] Instance values : LibJuliaValues julia value := {
  jl_is_tuple := fun v => match v with VPair _ _ => true | _ => false end;
  jl_get_nth_field := fun v i =>
    match v with
    | VPair a b => if (i =? 0)%Z then Some a else Some b
    | _ => None
    end;
  jl_unbox_int64 := fun v => match v with VInt z => z | _ => 0 end
}.

Definition fresh : @Process julia value unit :=
  mkProcess JuliaRuntime_default (mkJulia false None) [] "/opt/pi" tt [].

Definition ready : @Process julia value unit :=
  snd (Initialize (libjulia := api None (fun _ => true)) "" fresh).

(** The validation command of every path but those under [/bad/] answers
    true. *)
Definition valid_unless_bad (cmd : string) : bool :=
  negb (String.prefix ("try; FITS(" ++ dq ++ "/bad/") cmd).

End FakeFits.

(** The scripted interpreter of the claims, with no tuples. *)
#[global] Instance Fake_values : LibJuliaValues Fake.julia Fake.value := {
  jl_is_tuple := fun _ => false;
  jl_get_nth_field := fun _ _ => None;
  jl_unbox_int64 := fun _ => 0
}.

#[global] Instance Fake_bridge_types : BridgeTypes Fake.float := {
  float_3_0 := Fake.F3;
  float_0_1 := Fake.F0_1;
  String_of_chars := fun s => s
}.

(** * Properties *)

(** ** Strings *)

Lemma append_nil_r (s : string) : s ++ "" = s.
Proof. induction s as [|c s IH]; cbn; [reflexivity | now rewrite IH]. Qed.

Lemma append_assoc (a b c : string) : (a ++ b) ++ c = a ++ b ++ c.
Proof. induction a as [|x a IH]; cbn; [reflexivity | now rewrite IH]. Qed.

Lemma append_slash_nonempty (a b : string) : a ++ "/" ++ b <> "".
Proof. destruct a; cbn; discriminate. Qed.

Lemma spec_escape_clean (s : string) : clean s = true -> spec_escape s = s.
Proof.
  induction s as [|c s IH]; cbn; [reflexivity|].
  intros Hc. apply andb_true_iff in Hc as [Hc Hs].
  apply negb_true_iff in Hc. rewrite Hc, (IH Hs). reflexivity.
Qed.

(** The escaped form of a path is read back as one literal: the reader stops
    at the closing quote that follows it, wherever the path had quotes or
    backslashes. *)
Lemma spec_escape_closes (p rest : string) :
  after_literal_body (spec_escape p ++ dq ++ rest) = Some rest.
Proof.
  induction p as [|c p IH]; [reflexivity|].
  cbn [spec_escape]. unfold is_special.
  destruct (Ascii.eqb c quote_char) eqn:Hq.
  - apply Ascii.eqb_eq in Hq. subst c. cbn. exact IH.
  - destruct (Ascii.eqb c backslash_char) eqn:Hb.
    + apply Ascii.eqb_eq in Hb. subst c. cbn. exact IH.
    + cbn [orb append after_literal_body]. rewrite Hb, Hq. exact IH.
Qed.

(** ** The file-list loop *)

Lemma concat_cons (sep x : string) (xs : list string) :
  String.concat sep (x :: xs) = x ++ separated sep xs.
Proof.
  revert x. induction xs as [|y xs IH]; intros x.
  - cbn. now rewrite append_nil_r.
  - change (String.concat sep (x :: y :: xs))
      with (x ++ sep ++ String.concat sep (y :: xs)).
    now rewrite IH.
Qed.

Lemma files_loop_later (i : nat) (fs : list string) (acc : string) :
  files_loop (S i) fs acc
  = acc ++ separated ", " (map (fun f => dq ++ f ++ dq) fs).
Proof.
  revert i acc. induction fs as [|f fs IH]; intros i acc.
  - cbn. now rewrite append_nil_r.
  - cbn [files_loop map separated].
    replace (0 <? S i)%nat with true by reflexivity.
    rewrite IH. now rewrite !append_assoc.
Qed.

(** The literal that [ProcessStack] builds, for every list of paths: each
    path as it is, between double quotes. *)
Lemma filesArrayCmd_verbatim (fs : list string) :
  filesArrayCmd fs
  = "String[" ++ String.concat ", " (map (fun f => dq ++ f ++ dq) fs) ++ "]".
Proof.
  unfold filesArrayCmd. destruct fs as [|f fs]; [reflexivity|].
  cbn [files_loop map]. replace (0 <? 0)%nat with false by reflexivity.
  rewrite files_loop_later, concat_cons.
  now rewrite !append_assoc.
Qed.

(** ** Running the monad *)

Lemma let_pair {A B C : Type} (p : A * B) (f : A -> B -> C) :
  (let '(a, b) := p in f a b) = f (fst p) (snd p).
Proof. now destruct p. Qed.

Ltac monad_unfold :=
  unfold set_m_initialized, set_m_juliaModulePath, set_cached_functions,
    putenv, destroy_envVar, call_jl_init, call_jl_is_initialized,
    call_jl_eval_string,
    call_jl_exception_occurred, call_jl_exception_clear, call_jl_atexit_hook,
    call_jl_get_function, call_jl_call1, call_jl_is_string,
    call_jl_string_ptr, call_jl_unbox_bool, fprintf_stderr, report_progress,
    on_host, IsInitialized in *;
  unfold query, command in *;
  unfold emit, get_this, set_this, bind, ret in *.

(** Branch on a test that blocks evaluation: the exception checks first,
    then any test that is not itself blocked by another one. *)
Ltac case_split :=
  match goal with
  | |- context [is_some ?x] => destruct (is_some x) eqn:?
  | |- context [match ?x with _ => _ end] =>
      lazymatch type of x with
      | prod _ _ => fail
      | _ =>
          lazymatch x with
          | context [match _ with _ => _ end] => fail
          | _ => destruct x eqn:?
          end
      end
  end.

(** Run a computation symbolically; [simp] gets the first try at every
    step. *)
Ltac run_with simp :=
  monad_unfold; cbn;
  repeat (first [progress simp | case_split | rewrite let_pair];
          monad_unfold; cbn).

Ltac run_all := run_with idtac.

#[local] Arguments HandleJuliaException : simpl never.
#[local] Arguments c_str : simpl never.
#[local] Arguments processCmd : simpl never.
#[local] Arguments configCmd : simpl never.
#[local] Arguments filesArrayCmd : simpl never.

(** Events appended at the end of a trace and filtered away. *)
Ltac filter_trace :=
  repeat (rewrite filter_app; cbn [filter is_teardown is_progress
                                   is_foreign_call]);
  rewrite ?app_nil_r; try reflexivity.

Section RuntimeFacts.
Context {J V : Type} {libjulia : LibJulia J V}.
Context {H : Type}.
Context {float : Type} {cxx_float : CxxFloat float}.

Implicit Types (s : @Process J V H) (config : ProcessingConfig float).
Implicit Types (progressCallback : @ProgressCallback H).

(** *** HandleJuliaException *)

Lemma HandleJuliaException_this s :
  this (snd (HandleJuliaException s)) = this s.
Proof. unfold HandleJuliaException. run_all; reflexivity. Qed.

Lemma HandleJuliaException_host s :
  host (snd (HandleJuliaException s)) = host s.
Proof. unfold HandleJuliaException. run_all; reflexivity. Qed.

Lemma HandleJuliaException_no_teardown s :
  filter is_teardown (trace (snd (HandleJuliaException s)))
  = filter is_teardown (trace s).
Proof. unfold HandleJuliaException. run_all; filter_trace. Qed.

Lemma HandleJuliaException_no_progress s :
  filter is_progress (trace (snd (HandleJuliaException s)))
  = filter is_progress (trace s).
Proof. unfold HandleJuliaException. run_all; filter_trace. Qed.

(** A pending exception is gone once it has been handled. *)
Lemma HandleJuliaException_clears `{!LibJuliaLaws J V} s :
  jl_exception_occurred (julia s) <> None ->
  jl_exception_occurred (julia (snd (HandleJuliaException s))) = None.
Proof.
  intros Hex. unfold HandleJuliaException. monad_unfold. cbn.
  destruct (jl_exception_occurred (julia s)) eqn:E; [|congruence].
  repeat (case_split; cbn); apply jl_exception_clear_spec.
Qed.

(** *** ProcessStack *)

Lemma IsInitialized_run s : fst (IsInitialized s) = m_initialized (this s).
Proof. reflexivity. Qed.

(** [ProcessStack] does not write to the singleton. *)
Lemma ProcessStack_this inputFiles outputDirectory outputPrefix config
  progressCallback s :
  this (snd (ProcessStack inputFiles outputDirectory outputPrefix config
                          progressCallback s)) = this s.
Proof.
  unfold ProcessStack. run_all;
    rewrite ?HandleJuliaException_this; reflexivity.
Qed.

(** The one result that has [success] set. *)
Lemma ProcessStack_result_on_success inputFiles outputDirectory outputPrefix
  config progressCallback s :
  success (fst (ProcessStack inputFiles outputDirectory outputPrefix config
                             progressCallback s)) = true ->
  fst (ProcessStack inputFiles outputDirectory outputPrefix config
                    progressCallback s)
  = mkProcessingResult true ""
      (outputDirectory ++ "/" ++ outputPrefix ++ "_fused.fits")
      (outputDirectory ++ "/" ++ outputPrefix ++ "_confidence.fits")
      0 float_zero 0 0 0 0.
Proof.
  unfold ProcessStack, fused_path, confidence_path.
  run_all; intros Hs; try discriminate Hs; reflexivity.
Qed.

(** C10.  [ProcessStack] never changes the lifecycle state: on every path
    (rejection because the runtime is not initialized, failure to build the
    file list, failure to build the configuration, failure of the pipeline,
    success) the singleton's fields, and so the value of [IsInitialized()],
    are after the call what they were before it. *)
Theorem ProcessStack_keeps_lifecycle inputFiles outputDirectory outputPrefix
  config progressCallback s :
  this (snd (ProcessStack inputFiles outputDirectory outputPrefix config
                          progressCallback s)) = this s
  /\ fst (IsInitialized
            (snd (ProcessStack inputFiles outputDirectory outputPrefix config
                               progressCallback s)))
     = fst (IsInitialized s).
Proof.
  split; [apply ProcessStack_this|].
  now rewrite !IsInitialized_run, ProcessStack_this.
Qed.

(** C4.  Called while the runtime is not initialized, [ProcessStack]
    returns a failed result with the message "Julia runtime not
    initialized" and leaves the whole process as it was: the trace gets no
    event (no libjulia call, no callback invocation) and the host state is
    untouched. *)
Theorem ProcessStack_not_initialized inputFiles outputDirectory outputPrefix
  config progressCallback s :
  m_initialized (this s) = false ->
  success (fst (ProcessStack inputFiles outputDirectory outputPrefix config
                             progressCallback s)) = false
  /\ errorMessage (fst (ProcessStack inputFiles outputDirectory outputPrefix
                                     config progressCallback s)) <> ""
  /\ snd (ProcessStack inputFiles outputDirectory outputPrefix config
                       progressCallback s) = s
  /\ trace (snd (ProcessStack inputFiles outputDirectory outputPrefix config
                              progressCallback s)) = trace s.
Proof.
  intros Hinit. unfold ProcessStack, bind, get_this. cbn [fst snd].
  rewrite Hinit. cbn. repeat split; try reflexivity. discriminate.
Qed.

(** C6.  In a ready runtime in which none of the three commands (file
    list, configuration, pipeline) raises, [ProcessStack] reports success,
    the fused image path is the output directory, a slash, the output prefix
    and "_fused.fits", and the confidence map path is the same with
    "_confidence.fits".  No other call reports success: whenever
    [ProcessStack] reports success, the two paths are these. *)
Theorem ProcessStack_success_paths inputFiles outputDirectory outputPrefix
  config progressCallback s :
  (m_initialized (this s) = true ->
   jl_exception_occurred
     (snd (jl_eval_string (c_str (filesArrayCmd inputFiles)) (julia s)))
   = None ->
   jl_exception_occurred (julia_before_pipeline inputFiles config (julia s))
   = None ->
   jl_exception_occurred
     (snd (jl_eval_string
             (c_str (processCmd outputDirectory outputPrefix config))
             (julia_before_pipeline inputFiles config (julia s))))
   = None ->
   success (fst (ProcessStack inputFiles outputDirectory outputPrefix config
                              progressCallback s)) = true
   /\ fusedImagePath (fst (ProcessStack inputFiles outputDirectory
                                        outputPrefix config progressCallback
                                        s))
      = outputDirectory ++ "/" ++ outputPrefix ++ "_fused.fits"
   /\ confidenceMapPath (fst (ProcessStack inputFiles outputDirectory
                                           outputPrefix config
                                           progressCallback s))
      = outputDirectory ++ "/" ++ outputPrefix ++ "_confidence.fits")
  /\ (success (fst (ProcessStack inputFiles outputDirectory outputPrefix
                                 config progressCallback s)) = true ->
      fusedImagePath (fst (ProcessStack inputFiles outputDirectory
                                        outputPrefix config progressCallback
                                        s))
      = outputDirectory ++ "/" ++ outputPrefix ++ "_fused.fits"
      /\ confidenceMapPath (fst (ProcessStack inputFiles outputDirectory
                                              outputPrefix config
                                              progressCallback s))
         = outputDirectory ++ "/" ++ outputPrefix ++ "_confidence.fits").
Proof.
  split.
  - intros Hinit H1 H2 H3. unfold julia_before_pipeline in H2, H3.
    unfold ProcessStack, fused_path, confidence_path.
    monad_unfold. cbn. rewrite Hinit. cbn. rewrite H1. cbn.
    rewrite H2. cbn.
    destruct progressCallback as [cb|]; cbn; rewrite H3; cbn;
      repeat split.
  - intros Hok. rewrite (ProcessStack_result_on_success _ _ _ _ _ _ Hok).
    split; reflexivity.
Qed.

Lemma is_some_not_None {A : Type} (o : option A) :
  is_some o = true -> o <> None.
Proof. destruct o; [discriminate | intros E; discriminate E]. Qed.

Lemma is_some_false_None {A : Type} (o : option A) :
  is_some o = false -> o = None.
Proof. destruct o; [intros E; discriminate E | reflexivity]. Qed.

(** C5.  In a ready runtime, when the pipeline command raises in the
    interpreter state in which [ProcessStack] issues it, [ProcessStack]
    returns a failed result with a non-empty message, no exception is
    pending in the interpreter afterwards, and [IsInitialized()] is still
    true. *)
Theorem ProcessStack_foreign_failure `{!LibJuliaLaws J V} inputFiles
  outputDirectory outputPrefix config progressCallback s :
  m_initialized (this s) = true ->
  jl_exception_occurred
    (snd (jl_eval_string
            (c_str (processCmd outputDirectory outputPrefix config))
            (julia_before_pipeline inputFiles config (julia s))))
  <> None ->
  success (fst (ProcessStack inputFiles outputDirectory outputPrefix config
                             progressCallback s)) = false
  /\ errorMessage (fst (ProcessStack inputFiles outputDirectory outputPrefix
                                     config progressCallback s)) <> ""
  /\ jl_exception_occurred
       (julia (snd (ProcessStack inputFiles outputDirectory outputPrefix
                                 config progressCallback s))) = None
  /\ fst (IsInitialized
            (snd (ProcessStack inputFiles outputDirectory outputPrefix config
                               progressCallback s))) = true.
Proof.
  intros Hinit Hraise. unfold julia_before_pipeline in Hraise.
  rewrite IsInitialized_run, ProcessStack_this.
  unfold ProcessStack. monad_unfold. cbn. rewrite Hinit. cbn.
  repeat (first [case_split | rewrite let_pair]; monad_unfold; cbn);
    try (repeat split; try discriminate;
         apply HandleJuliaException_clears; cbn;
         now apply is_some_not_None).
  all: exfalso;
    match goal with
    | E : is_some (jl_exception_occurred
                     (snd (jl_eval_string
                             (c_str (processCmd _ _ _)) _))) = false
      |- _ => exact (Hraise (is_some_false_None _ E))
    end.
Qed.

(** *** Initialize, Shutdown, IsGPUAvailable *)

Lemma HandleJuliaException_trace_extends s :
  exists evs, trace (snd (HandleJuliaException s)) = (trace s ++ evs)%list.
Proof.
  unfold HandleJuliaException. run_all;
    rewrite <- ?app_assoc; eexists; reflexivity.
Qed.

(** C3 (where the code departs from the claim).  The interpreter starts,
    loading the module raises: [Initialize] returns false with
    [m_initialized] false, it did call [jl_init], and it has issued no
    [jl_atexit_hook] call, because the [Shutdown()] of the failure branch runs
    while [m_initialized] is still false. *)
Theorem Initialize_failed_load_skips_teardown juliaHome s :
  m_initialized (this s) = false ->
  (forall env (j : J), jl_is_initialized (jl_init env j) = true) ->
  (forall j : J,
      jl_exception_occurred (snd (jl_eval_string "using BayesianAstro" j))
      <> None) ->
  fst (Initialize juliaHome s) = false
  /\ m_initialized (this (snd (Initialize juliaHome s))) = false
  /\ In Ev_jl_init (trace (snd (Initialize juliaHome s)))
  /\ filter is_teardown (trace (snd (Initialize juliaHome s)))
     = filter is_teardown (trace s).
Proof.
  intros Hinit Hstart Hload.
  unfold Initialize, LoadBayesianAstroModule, Shutdown.
  change (c_str "using BayesianAstro") with "using BayesianAstro".
  run_with ltac:(rewrite ?HandleJuliaException_this, ?Hinit, ?Hstart).
  all: try (exfalso;
    match goal with
    | E : is_some (jl_exception_occurred (snd (jl_eval_string _ ?j))) = false
      |- _ => exact (Hload j (is_some_false_None _ E))
    end).
  all: repeat split.
  all: try (rewrite HandleJuliaException_no_teardown; cbn; filter_trace).
  all: match goal with
       | |- In _ (trace (snd (HandleJuliaException ?s1))) =>
           destruct (HandleJuliaException_trace_extends s1) as [evs ->];
           cbn; rewrite !in_app_iff; cbn; tauto
       end.
Qed.

(** C8.  [Initialize] on a ready runtime returns true and changes nothing
    (no event is appended to the trace: no start-up, no module load);
    [Shutdown] on a runtime that is not initialized changes nothing; a
    second [Shutdown] right after a first changes nothing, and the two
    together issue at most one [jl_atexit_hook] call. *)
Theorem lifecycle_idempotent juliaHome (s_ready s_idle : @Process J V H) s :
  m_initialized (this s_ready) = true ->
  m_initialized (this s_idle) = false ->
  Initialize juliaHome s_ready = (true, s_ready)
  /\ Shutdown s_idle = (tt, s_idle)
  /\ Shutdown (snd (Shutdown s)) = (tt, snd (Shutdown s))
  /\ (List.length (filter is_teardown
                          (trace (snd (Shutdown (snd (Shutdown s))))))
      <= S (List.length (filter is_teardown (trace s))))%nat.
Proof.
  intros Hready Hidle. repeat split.
  - unfold Initialize, bind, get_this. cbn. now rewrite Hready.
  - unfold Shutdown, bind, get_this. cbn. now rewrite Hidle.
  - unfold Shutdown. run_all; congruence.
  - unfold Shutdown. run_all; filter_trace;
      rewrite ?length_app; cbn; lia.
Qed.

(** C9.  [IsGPUAvailable] is a total function to [bool].  On a runtime
    that is not initialized it returns false without touching anything; on
    an initialized runtime in which the query raises it returns false. *)
Theorem IsGPUAvailable_false_when_unusable
  (s_idle s_faulty : @Process J V H) :
  m_initialized (this s_idle) = false ->
  m_initialized (this s_faulty) = true ->
  jl_exception_occurred
    (snd (jl_eval_string "BayesianAstro.CUDA_AVAILABLE[]" (julia s_faulty)))
  <> None ->
  IsGPUAvailable s_idle = (false, s_idle)
  /\ fst (IsGPUAvailable s_faulty) = false.
Proof.
  intros Hidle Hinit Hraise. split.
  - unfold IsGPUAvailable, bind, get_this. cbn. now rewrite Hidle.
  - unfold IsGPUAvailable. monad_unfold. cbn. rewrite Hinit. cbn.
    destruct (jl_exception_occurred _) eqn:E; [reflexivity|].
    now elim Hraise.
Qed.

End RuntimeFacts.

(** ** The host adapter *)

Section HostAdapterFacts.
Context {J V : Type} {libjulia : LibJulia J V}.
Context {float : Type} {cxx_float : CxxFloat float}.

(** C1, as the code has it.  The native indices 0, 1, 2, 3 become the
    foreign values 1, 2, 3, 4: the native default ConfidenceWeighted (index
    1) becomes 2, [FusionStrategy::ConfidenceWeighted], and that is the
    number written into the configuration command. *)
Theorem strategy_index_translation (files : list string) (sigma thr : float)
  (gpu cmap : bool) (dir pre : string) :
  map (fun i => fusionStrategy
                  (ExecuteGlobal_config
                     (mkInstance (BAFusionStrategy.ElementValue i) files
                                 sigma thr gpu cmap dir pre)))
      [BAFusionStrategy.MLE; BAFusionStrategy.ConfidenceWeighted;
       BAFusionStrategy.Lucky; BAFusionStrategy.MultiScale]
  = [FusionStrategy.MLE; FusionStrategy.ConfidenceWeighted;
     FusionStrategy.Lucky; FusionStrategy.MultiScale]
  /\ map (fun i => fusionStrategy
                     (ExecuteGlobal_config
                        (mkInstance i files sigma thr gpu cmap dir pre)))
         [0; 1; 2; 3]
     = [1; 2; 3; 4]
  /\ fusionStrategy
       (ExecuteGlobal_config
          (mkInstance BAFusionStrategy.Default files sigma thr gpu cmap
                      dir pre)) = 2
  /\ String.prefix "ProcessingConfig(fusion_strategy=2, "
       (configCmd
          (ExecuteGlobal_config
             (mkInstance BAFusionStrategy.Default files sigma thr gpu cmap
                         dir pre))) = true.
Proof. repeat split. Qed.

(** C7, as the code has it.  [ProcessingConfig] has no field for the
    generate-confidence-map flag, and a successful [ProcessStack] sets the
    confidence map path whatever the flag says; the flag only decides
    whether ExecuteGlobal prints the "Confidence map:" line. *)
Theorem confidence_map_path_always_set (inst : BayesianAstroInstance float)
  (s : @Process J V PclHost) :
  success (fst (ExecuteGlobal_ProcessStack inst s)) = true ->
  confidenceMapPath (fst (ExecuteGlobal_ProcessStack inst s))
  = c_str (p_outputDirectory inst) ++ "/" ++ c_str (p_outputPrefix inst)
    ++ "_confidence.fits"
  /\ confidenceMapPath (fst (ExecuteGlobal_ProcessStack inst s)) <> ""
  /\ fst (ExecuteGlobal inst s) = true
  /\ console (host (snd (ExecuteGlobal inst s)))
     = (console (host s)
        ++ [WriteLn "<b>BayesianAstro</b>";
            WriteLn ("Processing "
                     ++ show_int (Z.of_nat (List.length (p_inputFiles inst)))
                     ++ " frames...");
            WriteLn "Loading frames...";
            WriteLn "Complete";
            WriteLn ("Fused image: "
                     ++ c_str (c_str (p_outputDirectory inst) ++ "/"
                               ++ c_str (p_outputPrefix inst)
                               ++ "_fused.fits"))]
        ++ (if p_generateConfidenceMap inst
            then [WriteLn ("Confidence map: "
                           ++ c_str (c_str (p_outputDirectory inst) ++ "/"
                                     ++ c_str (p_outputPrefix inst)
                                     ++ "_confidence.fits"))]
            else [])
        ++ [WriteLn ("Mean confidence: " ++ format_3f float_zero)])%list.
Proof.
  intros Hok.
  assert (Hconf :
    confidenceMapPath (fst (ExecuteGlobal_ProcessStack inst s))
    = c_str (p_outputDirectory inst) ++ "/" ++ c_str (p_outputPrefix inst)
      ++ "_confidence.fits")
    by (unfold ExecuteGlobal_ProcessStack in *;
        now rewrite (ProcessStack_result_on_success _ _ _ _ _ _ Hok)).
  split; [exact Hconf|]. split.
  { rewrite Hconf. apply append_slash_nonempty. }
  revert Hok. clear Hconf.
  unfold ExecuteGlobal, ExecuteGlobal_ProcessStack, ProcessStack,
    ExecuteGlobal_progressCallback, fused_path, confidence_path,
    console_write, monitor_do.
  change (c_str "Loading frames...") with "Loading frames...".
  change (c_str "Complete") with "Complete".
  run_all; intros Hok; try discriminate Hok.
  all: split; [reflexivity|].
  all: rewrite <- ?app_assoc; reflexivity.
Qed.

End HostAdapterFacts.

(** ** The file-list literal *)

(** When no path has a quote or a backslash, the literal is the one the
    marshalling contract asks for. *)
Lemma filesArrayCmd_escaped_when_clean (inputFiles : list string) :
  forallb clean inputFiles = true ->
  filesArrayCmd inputFiles = spec_filesArrayCmd inputFiles.
Proof.
  intros Hclean. rewrite filesArrayCmd_verbatim. unfold spec_filesArrayCmd.
  do 3 f_equal.
  induction inputFiles as [|f fs IH]; [reflexivity|].
  cbn [forallb] in Hclean. apply andb_true_iff in Hclean as [Hf Hfs].
  cbn [map]. now rewrite (spec_escape_clean f Hf), (IH Hfs).
Qed.

Lemma length_append (a b : string) :
  String.length (a ++ b) = (String.length a + String.length b)%nat.
Proof. induction a as [|c a IH]; cbn; [reflexivity | now rewrite IH]. Qed.

(** Escaping never shortens a path, and keeps its length only when there
    was nothing to escape. *)
Lemma spec_escape_length (f : string) :
  (String.length f <= String.length (spec_escape f))%nat
  /\ (String.length (spec_escape f) = String.length f -> clean f = true).
Proof.
  induction f as [|c f [IHle IHeq]]; [split; [apply le_n | reflexivity]|].
  cbn [spec_escape clean]. destruct (is_special c); cbn [String.length negb andb].
  - split; [lia | intros E; lia].
  - split; [lia | intros E; apply IHeq; lia].
Qed.

Lemma separated_quoted_length (fs : list string) :
  (String.length (separated ", " (map (fun f => dq ++ f ++ dq) fs))
   <= String.length
        (separated ", " (map (fun f => dq ++ spec_escape f ++ dq) fs)))%nat
  /\ (String.length
        (separated ", " (map (fun f => dq ++ spec_escape f ++ dq) fs))
      = String.length (separated ", " (map (fun f => dq ++ f ++ dq) fs)) ->
      forallb clean fs = true).
Proof.
  induction fs as [|f fs [IHle IHeq]]; [split; [apply le_n | reflexivity]|].
  cbn [map separated forallb]. rewrite !length_append.
  destruct (spec_escape_length f) as [Hle Heq].
  split; [lia|].
  intros E. apply andb_true_iff. split; [apply Heq | apply IHeq]; lia.
Qed.

(** C2, as the code has it.  Every path goes into the literal as it is,
    between double quotes, whatever characters it has; the literal is the
    escaped one that the marshalling contract asks for exactly when no path
    has a quote or a backslash. *)
Theorem filesArrayCmd_verbatim_escaped_iff_clean (inputFiles : list string) :
  filesArrayCmd inputFiles
  = "String["
    ++ String.concat ", " (map (fun f => dq ++ f ++ dq) inputFiles) ++ "]"
  /\ (filesArrayCmd inputFiles = spec_filesArrayCmd inputFiles
      <-> forallb clean inputFiles = true).
Proof.
  split; [apply filesArrayCmd_verbatim|]. split.
  - rewrite filesArrayCmd_verbatim. unfold spec_filesArrayCmd. intros E.
    apply (f_equal String.length) in E.
    destruct inputFiles as [|f fs]; [reflexivity|].
    cbn [map] in E. rewrite !concat_cons in E.
    rewrite !length_append in E.
    destruct (spec_escape_length f) as [Hle Heq].
    destruct (separated_quoted_length fs) as [Hsle Hseq].
    cbn [forallb]. apply andb_true_iff.
    split; [apply Heq | apply Hseq]; lia.
  - apply filesArrayCmd_escaped_when_clean.
Qed.

(** ** Concrete runs on the scripted interpreter *)

#[global] Instance Fake_laws (can_start : bool) (failing : list string) :
  @LibJuliaLaws Fake.julia Fake.value (Fake.api can_start failing).
Proof. constructor. intros j. reflexivity. Qed.

(** C1: native index 0 is translated to 1, not to 2. *)
Lemma strategy_index_zero_is_one :
  fusionStrategy (ExecuteGlobal_config (Fake.instance_of 0 true)) = 1
  /\ fusionStrategy (ExecuteGlobal_config (Fake.instance_of 0 true)) <> 2
  /\ map (fun i => fusionStrategy (ExecuteGlobal_config (Fake.instance_of i true)))
         [0; 1; 2; 3] <> [2; 3; 4; 5].
Proof. repeat split; cbn; discriminate. Qed.

(** C2: a quote inside a path reaches the literal without a backslash; the
    literal differs from the escaped one and the string it opens is closed
    by the quote of the path, in front of [b]. *)
Lemma filesArrayCmd_quote_not_escaped :
  filesArrayCmd [Fake.quoted_path]
  = "String[" ++ dq ++ "a" ++ dq ++ "b" ++ dq ++ "]"
  /\ spec_filesArrayCmd [Fake.quoted_path]
     = "String[" ++ dq ++ "a" ++ String backslash_char dq ++ "b" ++ dq ++ "]"
  /\ filesArrayCmd [Fake.quoted_path] <> spec_filesArrayCmd [Fake.quoted_path]
  /\ after_literal_body (Fake.quoted_path ++ dq ++ "]")
     = Some ("b" ++ dq ++ "]")
  /\ after_literal_body (spec_escape Fake.quoted_path ++ dq ++ "]") = Some "]".
Proof. repeat split. cbv. discriminate. Qed.

(** C2 on two FITS paths with nothing to escape. *)
Lemma filesArrayCmd_verbatim_escaped_iff_clean_witness :
  forallb clean ["/data/f1.fits"; "/data/f2.fits"] = true
  /\ filesArrayCmd ["/data/f1.fits"; "/data/f2.fits"]
     = "String[" ++ dq ++ "/data/f1.fits" ++ dq ++ ", "
       ++ dq ++ "/data/f2.fits" ++ dq ++ "]"
  /\ filesArrayCmd ["/data/f1.fits"; "/data/f2.fits"]
     = spec_filesArrayCmd ["/data/f1.fits"; "/data/f2.fits"].
Proof.
  destruct (filesArrayCmd_verbatim_escaped_iff_clean
              ["/data/f1.fits"; "/data/f2.fits"]) as [Hverb [_ Hclean]].
  split; [reflexivity|]. split; [exact Hverb | exact (Hclean eq_refl)].
Defined.

(** C3: the interpreter starts, [using BayesianAstro] raises. *)
Lemma Initialize_failed_load_skips_teardown_witness :
  fst (Initialize (libjulia := Fake.load_fails) "/usr/julia" (Fake.fresh tt))
  = false
  /\ m_initialized
       (this (snd (Initialize (libjulia := Fake.load_fails) "/usr/julia"
                              (Fake.fresh tt)))) = false
  /\ In Ev_jl_init
        (trace (snd (Initialize (libjulia := Fake.load_fails) "/usr/julia"
                                (Fake.fresh tt))))
  /\ filter is_teardown
       (trace (snd (Initialize (libjulia := Fake.load_fails) "/usr/julia"
                               (Fake.fresh tt))))
     = filter is_teardown (trace (Fake.fresh tt)).
Proof.
  apply (Initialize_failed_load_skips_teardown
           (libjulia := Fake.load_fails) "/usr/julia" (Fake.fresh tt)).
  - reflexivity.
  - intros env j. reflexivity.
  - intros j. cbn. discriminate.
Defined.

(** In that run the interpreter is still started when [Initialize] has
    returned false, and [IsInitialized()] is false. *)
Lemma Initialize_failed_load_leaves_interpreter_started :
  Fake.started
    (julia (snd (Initialize (libjulia := Fake.load_fails) "/usr/julia"
                            (Fake.fresh tt)))) = true
  /\ fst (IsInitialized
            (snd (Initialize (libjulia := Fake.load_fails) "/usr/julia"
                             (Fake.fresh tt)))) = false
  /\ filter is_teardown
       (trace (snd (Initialize (libjulia := Fake.load_fails) "/usr/julia"
                               (Fake.fresh tt)))) = [].
Proof. repeat split. Qed.

(** C4 on a process in which [Initialize] was never called. *)
Lemma ProcessStack_not_initialized_witness :
  m_initialized (this (Fake.fresh Fake.no_calls)) = false
  /\ success (fst (ProcessStack (libjulia := Fake.all_good)
                     ["/data/f1.fits"] "/tmp/x" "run1" Fake.default_config
                     (Some Fake.log_progress) (Fake.fresh Fake.no_calls))) = false
  /\ errorMessage (fst (ProcessStack (libjulia := Fake.all_good)
                          ["/data/f1.fits"] "/tmp/x" "run1"
                          Fake.default_config
                          (Some Fake.log_progress) (Fake.fresh Fake.no_calls))) <> ""
  /\ snd (ProcessStack (libjulia := Fake.all_good)
            ["/data/f1.fits"] "/tmp/x" "run1" Fake.default_config
            (Some Fake.log_progress) (Fake.fresh Fake.no_calls)) = Fake.fresh []
  /\ trace (snd (ProcessStack (libjulia := Fake.all_good)
                   ["/data/f1.fits"] "/tmp/x" "run1" Fake.default_config
                   (Some Fake.log_progress) (Fake.fresh Fake.no_calls)))
     = trace (Fake.fresh Fake.no_calls).
Proof.
  split; [reflexivity|].
  apply (ProcessStack_not_initialized (libjulia := Fake.all_good)
           ["/data/f1.fits"] "/tmp/x" "run1" Fake.default_config
           (Some Fake.log_progress) (Fake.fresh Fake.no_calls)).
  reflexivity.
Defined.

(** C5 on a ready runtime whose [process_directory] call raises. *)
Lemma ProcessStack_foreign_failure_witness :
  success (fst (ProcessStack (libjulia := Fake.pipeline_fails)
                  ["/data/f1.fits"] "/tmp/x" "run1" Fake.default_config
                  (Some Fake.log_progress) (Fake.ready Fake.no_calls)))
  = false
  /\ errorMessage (fst (ProcessStack (libjulia := Fake.pipeline_fails)
                          ["/data/f1.fits"] "/tmp/x" "run1"
                          Fake.default_config (Some Fake.log_progress)
                          (Fake.ready Fake.no_calls))) <> ""
  /\ jl_exception_occurred (LibJulia := Fake.pipeline_fails)
       (julia (snd (ProcessStack (libjulia := Fake.pipeline_fails)
                      ["/data/f1.fits"] "/tmp/x" "run1" Fake.default_config
                      (Some Fake.log_progress) (Fake.ready Fake.no_calls))))
     = None
  /\ fst (IsInitialized
            (snd (ProcessStack (libjulia := Fake.pipeline_fails)
                    ["/data/f1.fits"] "/tmp/x" "run1" Fake.default_config
                    (Some Fake.log_progress) (Fake.ready Fake.no_calls))))
     = true.
Proof.
  apply (ProcessStack_foreign_failure (libjulia := Fake.pipeline_fails)
           ["/data/f1.fits"] "/tmp/x" "run1" Fake.default_config
           (Some Fake.log_progress) (Fake.ready Fake.no_calls)).
  - reflexivity.
  - vm_compute. discriminate.
Defined.

(** The same run, spelled out: the message, and the one callback call made
    before the pipeline raised. *)
Lemma ProcessStack_foreign_failure_run :
  errorMessage (fst (ProcessStack (libjulia := Fake.pipeline_fails)
                       ["/data/f1.fits"] "/tmp/x" "run1" Fake.default_config
                       (Some Fake.log_progress) (Fake.ready Fake.no_calls)))
  = "Processing failed - see console for details"
  /\ host (snd (ProcessStack (libjulia := Fake.pipeline_fails)
                  ["/data/f1.fits"] "/tmp/x" "run1" Fake.default_config
                  (Some Fake.log_progress) (Fake.ready Fake.no_calls)))
     = [(0, "Loading frames...")].
Proof. split; reflexivity. Qed.

(** C6 for the output directory /tmp/x and the prefix run1, on a ready
    runtime in which every command succeeds. *)
Lemma ProcessStack_success_paths_witness :
  success (fst (ProcessStack (libjulia := Fake.all_good)
                  ["/data/f1.fits"] "/tmp/x" "run1" Fake.default_config
                  (Some Fake.log_progress) (Fake.ready Fake.no_calls))) = true
  /\ fusedImagePath (fst (ProcessStack (libjulia := Fake.all_good)
                            ["/data/f1.fits"] "/tmp/x" "run1"
                            Fake.default_config
                            (Some Fake.log_progress)
                            (Fake.ready Fake.no_calls)))
     = "/tmp/x/run1_fused.fits"
  /\ confidenceMapPath (fst (ProcessStack (libjulia := Fake.all_good)
                               ["/data/f1.fits"] "/tmp/x" "run1"
                               Fake.default_config
                               (Some Fake.log_progress)
                               (Fake.ready Fake.no_calls)))
     = "/tmp/x/run1_confidence.fits".
Proof.
  apply (proj1 (ProcessStack_success_paths (libjulia := Fake.all_good)
                  ["/data/f1.fits"] "/tmp/x" "run1" Fake.default_config
                  (Some Fake.log_progress) (Fake.ready Fake.no_calls)));
    reflexivity.
Defined.

(** C7: the flag is off, the invocation succeeds, and the result carries
    the confidence map path all the same. *)
Lemma confidence_path_set_without_request :
  p_generateConfidenceMap (Fake.instance_of 1 false) = false
  /\ success (fst (ExecuteGlobal_ProcessStack (libjulia := Fake.all_good)
                     (Fake.instance_of 1 false) (Fake.ready Fake.empty_host)))
     = true
  /\ confidenceMapPath
       (fst (ExecuteGlobal_ProcessStack (libjulia := Fake.all_good)
               (Fake.instance_of 1 false) (Fake.ready Fake.empty_host)))
     = "/tmp/x/run1_confidence.fits"
  /\ confidenceMapPath
       (fst (ExecuteGlobal_ProcessStack (libjulia := Fake.all_good)
               (Fake.instance_of 1 false) (Fake.ready Fake.empty_host)))
     <> "".
Proof. repeat split. cbv. discriminate. Qed.

(** C7 for an instance that does not ask for the confidence map. *)
Lemma confidence_map_path_always_set_witness :
  success (fst (ExecuteGlobal_ProcessStack (libjulia := Fake.all_good)
                  (Fake.instance_of 1 false) (Fake.ready Fake.empty_host)))
  = true
  /\ confidenceMapPath
       (fst (ExecuteGlobal_ProcessStack (libjulia := Fake.all_good)
               (Fake.instance_of 1 false) (Fake.ready Fake.empty_host)))
     = "/tmp/x/run1_confidence.fits"
  /\ confidenceMapPath
       (fst (ExecuteGlobal_ProcessStack (libjulia := Fake.all_good)
               (Fake.instance_of 1 false) (Fake.ready Fake.empty_host)))
     <> ""
  /\ fst (ExecuteGlobal (libjulia := Fake.all_good)
            (Fake.instance_of 1 false) (Fake.ready Fake.empty_host)) = true
  /\ console (host (snd (ExecuteGlobal (libjulia := Fake.all_good)
                           (Fake.instance_of 1 false)
                           (Fake.ready Fake.empty_host))))
     = [WriteLn "<b>BayesianAstro</b>";
        WriteLn "Processing 2 frames...";
        WriteLn "Loading frames...";
        WriteLn "Complete";
        WriteLn "Fused image: /tmp/x/run1_fused.fits";
        WriteLn "Mean confidence: 0.000"].
Proof.
  split; [reflexivity|].
  pose proof (confidence_map_path_always_set (libjulia := Fake.all_good)
                (Fake.instance_of 1 false) (Fake.ready Fake.empty_host)) as Hw.
  vm_compute in Hw. vm_compute. exact (Hw eq_refl).
Defined.

(** With the flag on, the console has the extra line. *)
Lemma ExecuteGlobal_prints_confidence_map_on_request :
  console (host (snd (ExecuteGlobal (libjulia := Fake.all_good)
                        (Fake.instance_of 1 true)
                        (Fake.ready Fake.empty_host))))
  = [WriteLn "<b>BayesianAstro</b>";
     WriteLn "Processing 2 frames...";
     WriteLn "Loading frames...";
     WriteLn "Complete";
     WriteLn "Fused image: /tmp/x/run1_fused.fits";
     WriteLn "Confidence map: /tmp/x/run1_confidence.fits";
     WriteLn "Mean confidence: 0.000"].
Proof. reflexivity. Qed.

(** C8 on a ready and on a fresh process. *)
Lemma lifecycle_idempotent_witness :
  m_initialized (this (Fake.ready tt)) = true
  /\ m_initialized (this (Fake.fresh tt)) = false
  /\ Initialize (libjulia := Fake.all_good) "/usr/julia" (Fake.ready tt)
     = (true, Fake.ready tt)
  /\ Shutdown (libjulia := Fake.all_good) (Fake.fresh tt)
     = (tt, Fake.fresh tt)
  /\ Shutdown (libjulia := Fake.all_good)
       (snd (Shutdown (libjulia := Fake.all_good) (Fake.ready tt)))
     = (tt, snd (Shutdown (libjulia := Fake.all_good) (Fake.ready tt)))
  /\ (List.length
        (filter is_teardown
           (trace (snd (Shutdown (libjulia := Fake.all_good)
                          (snd (Shutdown (libjulia := Fake.all_good)
                                         (Fake.ready tt)))))))
      <= S (List.length (filter is_teardown (trace (Fake.ready tt)))))%nat.
Proof.
  split; [reflexivity|]. split; [reflexivity|].
  apply (lifecycle_idempotent (libjulia := Fake.all_good) "/usr/julia"
           (Fake.ready tt) (Fake.fresh tt) (Fake.ready tt));
    reflexivity.
Defined.

(** Shutting a ready runtime down twice tears the interpreter down once. *)
Lemma Shutdown_twice_tears_down_once :
  filter is_teardown
    (trace (snd (Shutdown (libjulia := Fake.all_good)
                   (snd (Shutdown (libjulia := Fake.all_good)
                                  (Fake.ready tt))))))
  = [Ev_jl_atexit_hook 0].
Proof. reflexivity. Qed.

(** C9 on a fresh process and on a ready one whose GPU query raises. *)
Lemma IsGPUAvailable_false_when_unusable_witness :
  m_initialized (this (Fake.fresh tt)) = false
  /\ m_initialized (this (Fake.ready tt)) = true
  /\ IsGPUAvailable (libjulia := Fake.gpu_query_fails) (Fake.fresh tt)
     = (false, Fake.fresh tt)
  /\ fst (IsGPUAvailable (libjulia := Fake.gpu_query_fails) (Fake.ready tt))
     = false.
Proof.
  split; [reflexivity|]. split; [reflexivity|].
  apply (IsGPUAvailable_false_when_unusable
           (libjulia := Fake.gpu_query_fails) (Fake.fresh tt) (Fake.ready tt)).
  - reflexivity.
  - reflexivity.
  - cbn. discriminate.
Defined.

(** On a ready runtime whose query succeeds, the answer is the unboxed
    value. *)
Lemma IsGPUAvailable_ready_run :
  fst (IsGPUAvailable (libjulia := Fake.all_good) (Fake.ready tt)) = true.
Proof. reflexivity. Qed.

(** * More of the runtime *)

#[local] Arguments validateCmd : simpl never.
#[local] Arguments dimensionsCmd : simpl never.

Section LifecycleFacts.
Context {J V : Type} {libjulia : LibJulia J V}.
Context {H : Type}.

Implicit Types (s : @Process J V H).


Lemma HandleJuliaException_no_eval s :
  filter is_eval_string (trace (snd (HandleJuliaException s)))
  = filter is_eval_string (trace s).
Proof.
  unfold HandleJuliaException. run_all;
    repeat (rewrite filter_app; cbn); rewrite ?app_nil_r; reflexivity.
Qed.

Lemma HandleJuliaException_no_init s :
  filter is_jl_init (trace (snd (HandleJuliaException s)))
  = filter is_jl_init (trace s).
Proof.
  unfold HandleJuliaException. run_all;
    repeat (rewrite filter_app; cbn); rewrite ?app_nil_r; reflexivity.
Qed.

(** What [Initialize] returns is what [IsInitialized()] says afterwards. *)
Lemma Initialize_result juliaHome s :
  fst (Initialize juliaHome s)
  = m_initialized (this (snd (Initialize juliaHome s))).
Proof.
  unfold Initialize, LoadBayesianAstroModule, Shutdown.
  destruct (m_initialized (this s)) eqn:Hinit.
  - run_with ltac:(rewrite ?Hinit); congruence.
  - run_with ltac:(rewrite ?HandleJuliaException_this, ?Hinit);
      try reflexivity; try congruence.
Qed.

Lemma Initialize_host juliaHome s :
  host (snd (Initialize juliaHome s)) = host s.
Proof.
  unfold Initialize, LoadBayesianAstroModule, Shutdown.
  run_with ltac:(rewrite ?HandleJuliaException_host); reflexivity.
Qed.

(** X1.  [Initialize] reports the state it leaves: it returns true exactly
    when [IsInitialized()] is true afterwards, on a ready runtime as well as
    after a failed or a successful start. *)
Theorem Initialize_returns_IsInitialized juliaHome s :
  fst (Initialize juliaHome s)
  = fst (IsInitialized (snd (Initialize juliaHome s))).
Proof. rewrite IsInitialized_run. apply Initialize_result. Qed.

(** X2.  When the interpreter does not start, [Initialize] gives up at
    once: it returns false, evaluates no Julia command, tears nothing down
    and leaves the fields of the singleton as they were. *)
Theorem Initialize_start_failure juliaHome s :
  m_initialized (this s) = false ->
  (forall env, jl_is_initialized (jl_init env (julia s)) = false) ->
  fst (Initialize juliaHome s) = false
  /\ this (snd (Initialize juliaHome s)) = this s
  /\ filter is_eval_string (trace (snd (Initialize juliaHome s)))
     = filter is_eval_string (trace s)
  /\ filter is_teardown (trace (snd (Initialize juliaHome s)))
     = filter is_teardown (trace s).
Proof.
  intros Hinit Hstart. unfold Initialize.
  run_with ltac:(rewrite ?Hinit, ?Hstart); try discriminate.
  all: repeat split; repeat (rewrite filter_app; cbn);
    rewrite ?app_nil_r; reflexivity.
Qed.


(** X4.  [Shutdown] on a ready runtime issues one [jl_atexit_hook(0)] and
    clears the flag; an [Initialize] after it is no longer a no-op: it
    calls [jl_init] again. *)
Theorem Shutdown_then_Initialize_restarts juliaHome s :
  m_initialized (this s) = true ->
  fst (IsInitialized (snd (Shutdown s))) = false
  /\ filter is_teardown (trace (snd (Shutdown s)))
     = (filter is_teardown (trace s) ++ [Ev_jl_atexit_hook 0])%list
  /\ filter is_jl_init
       (trace (snd (Initialize juliaHome (snd (Shutdown s)))))
     = (filter is_jl_init (trace s) ++ [Ev_jl_init])%list.
Proof.
  intros Hinit. unfold Initialize, LoadBayesianAstroModule, Shutdown.
  run_with ltac:(rewrite ?HandleJuliaException_this,
                   ?HandleJuliaException_no_init, ?Hinit);
    try discriminate.
  all: repeat split; repeat (rewrite filter_app; cbn);
    rewrite ?app_nil_r; try reflexivity.
  all: rewrite ?HandleJuliaException_no_init; cbn;
    repeat (rewrite filter_app; cbn); rewrite ?app_nil_r; reflexivity.
Qed.

End LifecycleFacts.

Section InvocationFacts.
Context {J V : Type} {libjulia : LibJulia J V}.
Context {H : Type}.
Context {float : Type} {cxx_float : CxxFloat float}.

Implicit Types (s : @Process J V H) (config : ProcessingConfig float).
Implicit Types (progressCallback : @ProgressCallback H).

(** X5.  The result record is either a failure with a message and no
    paths, or a success with no message: [success] false comes with a
    non-empty [errorMessage] and empty artifact paths, [success] true with
    an empty [errorMessage]. *)
Theorem ProcessStack_result_invariant inputFiles outputDirectory outputPrefix
  config progressCallback s :
  (success (fst (ProcessStack inputFiles outputDirectory outputPrefix config
                              progressCallback s)) = false ->
   errorMessage (fst (ProcessStack inputFiles outputDirectory outputPrefix
                                   config progressCallback s)) <> ""
   /\ fusedImagePath (fst (ProcessStack inputFiles outputDirectory
                                        outputPrefix config progressCallback
                                        s)) = ""
   /\ confidenceMapPath (fst (ProcessStack inputFiles outputDirectory
                                           outputPrefix config
                                           progressCallback s)) = "")
  /\ (success (fst (ProcessStack inputFiles outputDirectory outputPrefix
                                 config progressCallback s)) = true ->
      errorMessage (fst (ProcessStack inputFiles outputDirectory outputPrefix
                                      config progressCallback s)) = "").
Proof.
  unfold ProcessStack.
  run_all; split; intros Hs; try discriminate Hs;
    repeat split; try reflexivity; discriminate.
Qed.

(** X6.  [ProcessStack] never fills in the statistics: on every path the
    pixel counts of the result are 0 and the mean confidence is 0.0f. *)
Theorem ProcessStack_statistics_never_set inputFiles outputDirectory
  outputPrefix config progressCallback s :
  totalPixels (fst (ProcessStack inputFiles outputDirectory outputPrefix
                                 config progressCallback s)) = 0
  /\ meanConfidence (fst (ProcessStack inputFiles outputDirectory outputPrefix
                                       config progressCallback s))
     = float_zero
  /\ gaussianPixels (fst (ProcessStack inputFiles outputDirectory outputPrefix
                                       config progressCallback s)) = 0
  /\ poissonPixels (fst (ProcessStack inputFiles outputDirectory outputPrefix
                                      config progressCallback s)) = 0
  /\ bimodalPixels (fst (ProcessStack inputFiles outputDirectory outputPrefix
                                      config progressCallback s)) = 0
  /\ artifactPixels (fst (ProcessStack inputFiles outputDirectory outputPrefix
                                       config progressCallback s)) = 0.
Proof. unfold ProcessStack. run_all; repeat split. Qed.

Lemma HandleJuliaException_no_command_or_progress s :
  filter is_command_or_progress (trace (snd (HandleJuliaException s)))
  = filter is_command_or_progress (trace s).
Proof.
  unfold HandleJuliaException. run_all;
    repeat (rewrite filter_app; cbn); rewrite ?app_nil_r; reflexivity.
Qed.

(** X7.  In a ready runtime the callback is called with 0 after the two
    marshalling commands and before the pipeline command, and with 100 after
    the pipeline command, and only if that command did not raise; it is not
    called at all when a marshalling command raises, nor when there is no
    callback.  The commands and the callback calls of one invocation, in the
    order in which they happen, are the list below, and the result is a
    success exactly when the list is complete. *)
Theorem ProcessStack_progress_protocol inputFiles outputDirectory outputPrefix
  config progressCallback s :
  m_initialized (this s) = true ->
  filter is_command_or_progress
    (trace (snd (ProcessStack inputFiles outputDirectory outputPrefix config
                              progressCallback s)))
  = (filter is_command_or_progress (trace s)
     ++ Ev_jl_eval_string (c_str (filesArrayCmd inputFiles))
     :: (if is_some
              (jl_exception_occurred
                 (snd (jl_eval_string (c_str (filesArrayCmd inputFiles))
                                      (julia s))))
         then []
         else
           Ev_jl_eval_string (c_str (configCmd config))
           :: (if is_some
                    (jl_exception_occurred
                       (julia_before_pipeline inputFiles config (julia s)))
               then []
               else
                 progress_calls progressCallback 0 "Loading frames..."
                 ++ Ev_jl_eval_string
                      (c_str (processCmd outputDirectory outputPrefix config))
                 :: (if is_some
                          (jl_exception_occurred
                             (snd (jl_eval_string
                                     (c_str (processCmd outputDirectory
                                                        outputPrefix config))
                                     (julia_before_pipeline inputFiles config
                                                            (julia s)))))
                     then []
                     else progress_calls progressCallback 100 "Complete"))))%list
  /\ success (fst (ProcessStack inputFiles outputDirectory outputPrefix
                                config progressCallback s))
     = negb
         (is_some
            (jl_exception_occurred
               (snd (jl_eval_string (c_str (filesArrayCmd inputFiles))
                                    (julia s)))))
       && negb
            (is_some
               (jl_exception_occurred
                  (julia_before_pipeline inputFiles config (julia s))))
       && negb
            (is_some
               (jl_exception_occurred
                  (snd (jl_eval_string
                          (c_str (processCmd outputDirectory outputPrefix
                                             config))
                          (julia_before_pipeline inputFiles config
                                                 (julia s)))))).
Proof.
  intros Hinit. unfold julia_before_pipeline, progress_calls.
  unfold ProcessStack. monad_unfold. cbn. rewrite Hinit. cbn.
  destruct (is_some (jl_exception_occurred
                       (snd (jl_eval_string (c_str (filesArrayCmd inputFiles))
                                            (julia s))))) eqn:E1; cbn.
  { rewrite let_pair. cbn.
    rewrite HandleJuliaException_no_command_or_progress. cbn.
    repeat (rewrite filter_app; cbn). rewrite ?app_nil_r.
    split; reflexivity. }
  destruct (is_some (jl_exception_occurred
                       (snd (jl_eval_string (c_str (configCmd config))
                               (snd (jl_eval_string
                                       (c_str (filesArrayCmd inputFiles))
                                       (julia s))))))) eqn:E2; cbn.
  { rewrite let_pair. cbn.
    rewrite HandleJuliaException_no_command_or_progress. cbn.
    repeat (rewrite filter_app; cbn). rewrite ?app_nil_r, <- ?app_assoc.
    split; reflexivity. }
  destruct progressCallback as [cb|]; cbn.
  all: destruct (is_some (jl_exception_occurred
                            (snd (jl_eval_string
                                    (c_str (processCmd outputDirectory
                                                       outputPrefix config))
                                    _)))) eqn:E3; cbn.
  all: rewrite ?let_pair; cbn;
    rewrite ?HandleJuliaException_no_command_or_progress; cbn;
    repeat (rewrite filter_app; cbn); rewrite ?app_nil_r, <- ?app_assoc;
    cbn; split; reflexivity.
Qed.

(** X8.  In a ready runtime, when the file-list command raises, the call
    fails with "Failed to create input file list" and that command is the
    only one evaluated; when the file-list command does not raise and the
    configuration command does, the call fails with "Failed to create
    processing config" and these two commands are the only ones evaluated.
    In both cases the callback is not called (the host state is untouched):
    the pipeline command is not issued. *)
Theorem ProcessStack_marshalling_failure inputFiles outputDirectory
  outputPrefix config progressCallback s :
  m_initialized (this s) = true ->
  (jl_exception_occurred
     (snd (jl_eval_string (c_str (filesArrayCmd inputFiles)) (julia s)))
   <> None ->
   success (fst (ProcessStack inputFiles outputDirectory outputPrefix config
                              progressCallback s)) = false
   /\ errorMessage (fst (ProcessStack inputFiles outputDirectory outputPrefix
                                      config progressCallback s))
      = "Failed to create input file list"
   /\ host (snd (ProcessStack inputFiles outputDirectory outputPrefix config
                              progressCallback s)) = host s
   /\ filter is_progress
        (trace (snd (ProcessStack inputFiles outputDirectory outputPrefix
                                  config progressCallback s)))
      = filter is_progress (trace s)
   /\ filter is_eval_string
        (trace (snd (ProcessStack inputFiles outputDirectory outputPrefix
                                  config progressCallback s)))
      = (filter is_eval_string (trace s)
         ++ [Ev_jl_eval_string (c_str (filesArrayCmd inputFiles))])%list)
  /\ (jl_exception_occurred
        (snd (jl_eval_string (c_str (filesArrayCmd inputFiles)) (julia s)))
      = None ->
      jl_exception_occurred
        (julia_before_pipeline inputFiles config (julia s)) <> None ->
      success (fst (ProcessStack inputFiles outputDirectory outputPrefix
                                 config progressCallback s)) = false
      /\ errorMessage (fst (ProcessStack inputFiles outputDirectory
                                         outputPrefix config progressCallback
                                         s))
         = "Failed to create processing config"
      /\ host (snd (ProcessStack inputFiles outputDirectory outputPrefix
                                 config progressCallback s)) = host s
      /\ filter is_progress
           (trace (snd (ProcessStack inputFiles outputDirectory outputPrefix
                                     config progressCallback s)))
         = filter is_progress (trace s)
      /\ filter is_eval_string
           (trace (snd (ProcessStack inputFiles outputDirectory outputPrefix
                                     config progressCallback s)))
         = (filter is_eval_string (trace s)
            ++ [Ev_jl_eval_string (c_str (filesArrayCmd inputFiles));
                Ev_jl_eval_string (c_str (configCmd config))])%list).
Proof.
  intros Hinit. unfold julia_before_pipeline.
  unfold ProcessStack. monad_unfold. cbn. rewrite Hinit. cbn.
  destruct (jl_exception_occurred
              (snd (jl_eval_string (c_str (filesArrayCmd inputFiles))
                                   (julia s)))) as [e1|] eqn:E1; cbn.
  - split; [intros _ | intros Hnone; discriminate Hnone].
    rewrite let_pair. cbn.
    rewrite HandleJuliaException_host, HandleJuliaException_no_progress,
      HandleJuliaException_no_eval. cbn.
    repeat (rewrite filter_app; cbn). rewrite ?app_nil_r.
    repeat split.
  - split; [intros Hne; now elim Hne | intros _ Hraise].
    destruct (jl_exception_occurred
                (snd (jl_eval_string (c_str (configCmd config))
                        (snd (jl_eval_string
                                (c_str (filesArrayCmd inputFiles))
                                (julia s)))))) as [e2|] eqn:E2; cbn;
      [|now elim Hraise].
    rewrite let_pair. cbn.
    rewrite HandleJuliaException_host, HandleJuliaException_no_progress,
      HandleJuliaException_no_eval. cbn.
    repeat (rewrite filter_app; cbn). rewrite ?app_nil_r, <- ?app_assoc.
    repeat split.
Qed.

End InvocationFacts.

Section QueryFacts.
Context {J V : Type} {libjulia : LibJulia J V} {values : LibJuliaValues J V}.
Context {H : Type}.

Implicit Types (s : @Process J V H).

(** One validation on a ready runtime: one command, the singleton as it
    was. *)
Lemma ValidateFitsFile_ready path s :
  m_initialized (this s) = true ->
  this (snd (ValidateFitsFile path s)) = this s
  /\ filter is_eval_string (trace (snd (ValidateFitsFile path s)))
     = (filter is_eval_string (trace s)
        ++ [Ev_jl_eval_string (c_str (validateCmd path))])%list.
Proof.
  intros Hinit. unfold ValidateFitsFile.
  run_with ltac:(rewrite ?Hinit); try discriminate;
    repeat (rewrite filter_app; cbn); rewrite ?app_nil_r; split; reflexivity.
Qed.

Lemma ValidateFitsFile_idle path s :
  m_initialized (this s) = false -> ValidateFitsFile path s = (false, s).
Proof.
  intros Hinit. unfold ValidateFitsFile, bind, get_this. cbn.
  now rewrite Hinit.
Qed.

(** X9.  [ValidateFitsFile] treats every failure as "not valid": on a
    runtime that is not initialized it answers false and touches nothing,
    and on a ready one it answers false when the command raises.  It never
    changes the lifecycle state. *)
Theorem ValidateFitsFile_false_when_unusable path
  (s_idle s_faulty : @Process J V H) s :
  m_initialized (this s_idle) = false ->
  m_initialized (this s_faulty) = true ->
  jl_exception_occurred
    (snd (jl_eval_string (c_str (validateCmd path)) (julia s_faulty)))
  <> None ->
  ValidateFitsFile path s_idle = (false, s_idle)
  /\ fst (ValidateFitsFile path s_faulty) = false
  /\ this (snd (ValidateFitsFile path s)) = this s.
Proof.
  intros Hidle Hinit Hraise. split; [now apply ValidateFitsFile_idle|]. split.
  - unfold ValidateFitsFile. monad_unfold. cbn. rewrite Hinit. cbn.
    destruct (jl_exception_occurred _) eqn:E; [reflexivity|].
    now elim Hraise.
  - unfold ValidateFitsFile. run_all; reflexivity.
Qed.

(** X10.  On a ready runtime, [ValidateInputFiles] answers true only after
    it has checked every input file: the commands it has evaluated are the
    validation commands of the input files, one per file, in the order of
    the list. *)
Theorem ValidateInputFiles_checks_every_file {float : Type}
  (inst : BayesianAstroInstance float) s :
  m_initialized (this s) = true ->
  fst (ValidateInputFiles inst s) = true ->
  filter is_eval_string (trace (snd (ValidateInputFiles inst s)))
  = (filter is_eval_string (trace s)
     ++ map (fun path => Ev_jl_eval_string (c_str (validateCmd (c_str path))))
            (p_inputFiles inst))%list.
Proof.
  unfold ValidateInputFiles. generalize (p_inputFiles inst) as files.
  intros files. revert s.
  induction files as [|path rest IH]; intros s Hinit Hok.
  - cbn. now rewrite app_nil_r.
  - cbn [ValidateInputFiles_loop] in *. unfold bind in *.
    destruct (ValidateFitsFile (c_str path) s) as [ok s1] eqn:E1.
    assert (Hs1 : s1 = snd (ValidateFitsFile (c_str path) s))
      by now rewrite E1.
    destruct (ValidateFitsFile_ready (c_str path) s Hinit) as [Hthis Htrace].
    rewrite <- Hs1 in Hthis, Htrace.
    destruct ok; cbn [negb] in *; [|discriminate Hok].
    rewrite IH; [|now rewrite Hthis | exact Hok].
    rewrite Htrace, <- app_assoc. reflexivity.
Qed.

(** X11.  On a runtime that is not initialized, [ValidateInputFiles]
    accepts the empty list and rejects every other one, and either way it
    touches nothing. *)
Theorem ValidateInputFiles_not_initialized {float : Type}
  (inst : BayesianAstroInstance float) s :
  m_initialized (this s) = false ->
  ValidateInputFiles inst s
  = (match p_inputFiles inst with [] => true | _ :: _ => false end, s).
Proof.
  intros Hinit. unfold ValidateInputFiles.
  destruct (p_inputFiles inst) as [|path rest]; [reflexivity|].
  cbn [ValidateInputFiles_loop]. unfold bind.
  now rewrite (ValidateFitsFile_idle _ _ Hinit).
Qed.

(** X12.  [GetImageDimensions] answers (0, 0) on every failure: on a
    runtime that is not initialized (touching nothing), when the command
    raises, and when the command yields something that is not a tuple. *)
Theorem GetImageDimensions_defaults path s :
  m_initialized (this s) = false
  \/ jl_exception_occurred
       (snd (jl_eval_string (c_str (dimensionsCmd path)) (julia s))) <> None
  \/ (exists v,
        fst (jl_eval_string (c_str (dimensionsCmd path)) (julia s)) = Some v
        /\ jl_is_tuple v = false) ->
  fst (GetImageDimensions path s) = Some (0, 0)
  /\ (m_initialized (this s) = false ->
      snd (GetImageDimensions path s) = s).
Proof.
  intros Hcase. split.
  - unfold GetImageDimensions. monad_unfold. cbn.
    destruct (m_initialized (this s)) eqn:Hinit; cbn; [|reflexivity].
    destruct (is_some _) eqn:E; [reflexivity|]. cbn.
    apply is_some_false_None in E.
    destruct Hcase as [Hidle | [Hraise | (v & Hv & Htuple)]].
    + discriminate Hidle.
    + now elim Hraise.
    + rewrite Hv. cbn. now rewrite Htuple.
  - intros Hidle. unfold GetImageDimensions, bind, get_this. cbn.
    now rewrite Hidle.
Qed.

(** X13.  When the command yields a tuple, [GetImageDimensions] returns
    the pair (width, height) with the width taken from the second field of
    the tuple and the height from the first, each narrowed to 32 bits. *)
Theorem GetImageDimensions_width_is_second_field path s (v f0 f1 : V) :
  m_initialized (this s) = true ->
  fst (jl_eval_string (c_str (dimensionsCmd path)) (julia s)) = Some v ->
  jl_exception_occurred
    (snd (jl_eval_string (c_str (dimensionsCmd path)) (julia s))) = None ->
  jl_is_tuple v = true ->
  jl_get_nth_field v 0 = Some f0 ->
  jl_get_nth_field v 1 = Some f1 ->
  fst (GetImageDimensions path s)
  = Some (wrap_int32 (jl_unbox_int64 f1), wrap_int32 (jl_unbox_int64 f0)).
Proof.
  intros Hinit Hval Hex Htuple H0 H1.
  unfold GetImageDimensions. monad_unfold. cbn. rewrite Hinit. cbn.
  rewrite Hval. cbn. rewrite Hex. cbn. rewrite Htuple, H0, H1. reflexivity.
Qed.

(** X14.  [GetGPUInfo] agrees with [IsGPUAvailable]: whenever
    [IsGPUAvailable] answers false, [GetGPUInfo] answers "No GPU available"
    and does nothing beyond what [IsGPUAvailable] did: the device name is
    not queried. *)
Theorem GetGPUInfo_follows_IsGPUAvailable s :
  fst (IsGPUAvailable s) = false ->
  GetGPUInfo s = (Some "No GPU available", snd (IsGPUAvailable s)).
Proof.
  intros Hgpu. unfold GetGPUInfo. unfold bind at 1, get_this at 1.
  destruct (m_initialized (this s)) eqn:Hinit; cbn [negb].
  - unfold bind at 1. destruct (IsGPUAvailable s) as [gpu s1] eqn:E.
    cbn in Hgpu. subst gpu. reflexivity.
  - unfold IsGPUAvailable, bind, get_this, ret. cbn. now rewrite Hinit.
Qed.

End QueryFacts.

(** * More of the host adapter *)

Section HostAdapterMore.
Context {J V : Type} {libjulia : LibJulia J V}.
Context {float : Type} {cxx_float : CxxFloat float}.

Implicit Types (inst : BayesianAstroInstance float).
Implicit Types (s : @Process J V PclHost).

(** X15.  [CanExecuteGlobal] changes nothing, and it says yes exactly when
    there is at least one input file, the output directory is not empty and
    the runtime is initialized; of several reasons to say no it reports the
    first in that order. *)
Theorem CanExecuteGlobal_spec inst s :
  snd (CanExecuteGlobal inst s) = s
  /\ (fst (CanExecuteGlobal inst s) = None <->
      p_inputFiles inst <> []
      /\ empty (p_outputDirectory inst) = false
      /\ m_initialized (this s) = true)
  /\ (p_inputFiles inst = [] ->
      fst (CanExecuteGlobal inst s) = Some "No input files specified.")
  /\ (p_inputFiles inst <> [] -> empty (p_outputDirectory inst) = true ->
      fst (CanExecuteGlobal inst s) = Some "No output directory specified.").
Proof.
  unfold CanExecuteGlobal, IsInitialized, bind, get_this, ret.
  destruct (p_inputFiles inst) as [|f fs]; cbn.
  - repeat split; try congruence; try discriminate.
    intros [Hf _]. congruence.
  - destruct (empty (p_outputDirectory inst)); cbn.
    + repeat split; try congruence; try discriminate.
      intros (_ & Hd & _). discriminate.
    + destruct (m_initialized (this s)); cbn;
        repeat split; try congruence; try discriminate.
      intros (_ & _ & Hi). discriminate.
Qed.

(** X16.  On a runtime that is not initialized, [ExecuteGlobal] returns
    false without any foreign call: the console gets the banner, the frame
    count and the critical line with the reason, the monitor is started and
    completed, and the runtime is left as it was. *)
Theorem ExecuteGlobal_not_initialized inst s :
  m_initialized (this s) = false ->
  fst (ExecuteGlobal inst s) = false
  /\ trace (snd (ExecuteGlobal inst s)) = trace s
  /\ julia (snd (ExecuteGlobal inst s)) = julia s
  /\ this (snd (ExecuteGlobal inst s)) = this s
  /\ console (host (snd (ExecuteGlobal inst s)))
     = (console (host s)
        ++ [WriteLn "<b>BayesianAstro</b>";
            WriteLn ("Processing "
                     ++ show_int (Z.of_nat (List.length (p_inputFiles inst)))
                     ++ " frames...");
            CriticalLn "** Processing failed: Julia runtime not initialized"])%list
  /\ monitor (host (snd (ExecuteGlobal inst s)))
     = (monitor (host s)
        ++ [Monitor_Initialize "BayesianAstro" 100; Monitor_Complete 100])%list.
Proof.
  intros Hinit.
  unfold ExecuteGlobal, ExecuteGlobal_ProcessStack, ProcessStack,
    console_write, monitor_do.
  change (c_str "Julia runtime not initialized")
    with "Julia runtime not initialized".
  monad_unfold. cbn. rewrite Hinit. cbn.
  rewrite <- !app_assoc. repeat split.
Qed.

(** X17.  Whatever the pipeline does, [ExecuteGlobal] leaves the lifecycle
    state alone and completes the status monitor (its last call is
    [Complete(100)], also after a failure); it returns true exactly when its
    last console line is the mean-confidence line, and false exactly when
    that line is a critical line carrying a non-empty reason. *)
Theorem ExecuteGlobal_outcome inst s :
  this (snd (ExecuteGlobal inst s)) = this s
  /\ last (monitor (host (snd (ExecuteGlobal inst s)))) (Monitor_Complete 0)
     = Monitor_Complete 100
  /\ (fst (ExecuteGlobal inst s) = true ->
      last (console (host (snd (ExecuteGlobal inst s)))) (WriteLn "")
      = WriteLn ("Mean confidence: " ++ format_3f float_zero))
  /\ (fst (ExecuteGlobal inst s) = false ->
      exists reason,
        reason <> ""
        /\ last (console (host (snd (ExecuteGlobal inst s)))) (WriteLn "")
           = CriticalLn ("** Processing failed: " ++ reason)).
Proof.
  unfold ExecuteGlobal, ExecuteGlobal_ProcessStack, ProcessStack,
    ExecuteGlobal_progressCallback, console_write, monitor_do.
  run_with ltac:(rewrite ?HandleJuliaException_this,
                   ?HandleJuliaException_host).
  all: repeat split; try discriminate; rewrite ?last_last; try reflexivity.
  all: intros _; eexists; split; cycle 1;
    [rewrite ?last_last; reflexivity | vm_compute; discriminate].
Qed.

End HostAdapterMore.

Section InstallFacts.
Context {J V : Type} {libjulia : LibJulia J V}.

#[local] Arguments Initialize : simpl never.

Lemma Initialize_throwing_no_throw juliaHome (s : @Process J V InstallHost) :
  Initialize_throwing false juliaHome s
  = (Returned (fst (Initialize juliaHome s)), snd (Initialize juliaHome s)).
Proof.
  unfold Initialize_throwing, Initialize, LoadBayesianAstroModule, Shutdown.
  run_all; reflexivity.
Qed.

Lemma Initialize_ready (s : @Process J V InstallHost) :
  m_initialized (this s) = true -> Initialize "" s = (true, s).
Proof.
  intros Hinit. unfold Initialize. monad_unfold. cbn. rewrite Hinit.
  reflexivity.
Qed.

Lemma Initialize_not_started (s : @Process J V InstallHost) :
  m_initialized (this s) = false ->
  jl_is_initialized (jl_init (environ s) (julia s)) = false ->
  m_initialized (this (snd (Initialize "" s))) = false.
Proof.
  intros Hinit Hstart. unfold Initialize. monad_unfold. cbn.
  rewrite Hinit. cbn. rewrite Hstart. cbn. exact Hinit.
Qed.

#[local] Arguments Initialize_throwing : simpl never.

(** X18.  [InstallPixInsightModule] returns 0 whatever the interpreter
    does.  In the full-install mode it creates the module, the process and
    the interface even when the runtime fails to initialize or
    [Initialize] throws.  It writes at most one console line: none when the
    runtime was ready before the call; the critical line when the
    interpreter does not start; the warning line "Julia initialization
    deferred" when the interpreter starts and
    [std::filesystem::current_path()] throws, in which case the interpreter
    is left started, [IsInitialized()] is false and no critical line is
    written; otherwise the critical line exactly when [IsInitialized()] is
    false afterwards.  Whenever [IsInitialized()] is true afterwards nothing
    has been written.  In any other mode it creates the module only, writes
    nothing and makes no foreign call. *)
Theorem InstallPixInsightModule_never_fails (FullInstall mode : Z)
  (current_path_throws : bool) (s : @Process J V InstallHost) :
  fst (InstallPixInsightModule FullInstall mode current_path_throws s) = 0
  /\ install_objects
       (host (snd (InstallPixInsightModule FullInstall mode
                                           current_path_throws s)))
     = (install_objects (host s)
        ++ (if (mode =? FullInstall)%Z
            then [New_BayesianAstroModule; New_BayesianAstroProcess;
                  New_BayesianAstroInterface]
            else [New_BayesianAstroModule]))%list
  /\ install_console
       (host (snd (InstallPixInsightModule FullInstall mode
                                           current_path_throws s)))
     = (install_console (host s)
        ++ (if (mode =? FullInstall)%Z
            then
              if m_initialized (this s) then []
              else if negb (jl_is_initialized
                              (jl_init (environ s) (julia s)))
              then [CriticalLn
                      "** BayesianAstro: Failed to initialize Julia runtime"]
              else if current_path_throws
              then [WarningLn
                      "** BayesianAstro: Julia initialization deferred"]
              else if m_initialized
                        (this (snd (InstallPixInsightModule
                                      FullInstall mode current_path_throws
                                      s)))
              then []
              else [CriticalLn
                      "** BayesianAstro: Failed to initialize Julia runtime"]
            else []))%list
  /\ ((mode =? FullInstall)%Z = true ->
      m_initialized (this s) = false ->
      jl_is_initialized (jl_init (environ s) (julia s)) = true ->
      current_path_throws = true ->
      m_initialized
        (this (snd (InstallPixInsightModule FullInstall mode
                                            current_path_throws s))) = false
      /\ julia (snd (InstallPixInsightModule FullInstall mode
                                             current_path_throws s))
         = jl_init (environ s) (julia s)
      /\ trace (snd (InstallPixInsightModule FullInstall mode
                                             current_path_throws s))
         = (trace s ++ [Ev_jl_init; Ev_jl_is_initialized])%list)
  /\ (m_initialized
        (this (snd (InstallPixInsightModule FullInstall mode
                                            current_path_throws s))) = true ->
      install_console
        (host (snd (InstallPixInsightModule FullInstall mode
                                            current_path_throws s)))
      = install_console (host s))
  /\ ((mode =? FullInstall)%Z = false ->
      trace (snd (InstallPixInsightModule FullInstall mode
                                          current_path_throws s)) = trace s).
Proof.
  unfold InstallPixInsightModule, new_object, install_CriticalLn,
    install_WarningLn, on_install.
  destruct (mode =? FullInstall)%Z.
  2:{ cbn. rewrite app_nil_r.
      repeat split; try discriminate; try reflexivity. }
  destruct current_path_throws.
  - unfold Initialize_throwing. monad_unfold. cbn.
    destruct (m_initialized (this s)) eqn:Hinit; cbn.
    { rewrite ?Hinit, ?app_nil_r, <- ?app_assoc. cbn.
      repeat split; try discriminate; try reflexivity. }
    destruct (jl_is_initialized (jl_init (environ s) (julia s))) eqn:Hstart;
      cbn; rewrite ?Hinit, <- ?app_assoc; cbn;
      repeat split; try discriminate; try reflexivity.
  - monad_unfold. cbn. rewrite Initialize_throwing_no_throw. cbn.
    rewrite Initialize_result.
    destruct (m_initialized (this s)) eqn:Hinit.
    + rewrite Initialize_ready by exact Hinit. cbn.
      rewrite ?Hinit. cbn. rewrite ?app_nil_r, <- ?app_assoc. cbn.
      repeat split; try discriminate; try reflexivity.
    + destruct (jl_is_initialized (jl_init (environ s) (julia s)))
        eqn:Hstart; cbn [negb].
      * destruct (m_initialized (this (snd (Initialize "" _)))) eqn:Hend;
          cbn; rewrite ?Initialize_host; cbn;
          rewrite ?Hend, ?app_nil_r, <- ?app_assoc; cbn;
          repeat split; try discriminate; try reflexivity.
      * rewrite Initialize_not_started by assumption. cbn.
        rewrite ?Initialize_host; cbn.
        rewrite ?Initialize_not_started by assumption.
        rewrite ?app_nil_r, <- ?app_assoc; cbn;
          repeat split; try discriminate; try reflexivity.
Qed.

End InstallFacts.

(** * The bridge *)

Section BridgeFacts.
Context {float : Type} {bridge_types : BridgeTypes float}.

Implicit Types (b : BayesianAstroBridge float).
Implicit Types (x : BayesianAstroInstance float).

Lemma fold_AddInputFile (f : string -> string) (paths : list string) x :
  p_inputFiles (fold_left (fun acc path => AddInputFile (f path) acc) paths x)
  = (p_inputFiles x ++ map f paths)%list.
Proof.
  revert x. induction paths as [|p ps IH]; intros x; cbn.
  - now rewrite app_nil_r.
  - rewrite IH. cbn. now rewrite <- app_assoc.
Qed.

(** X19.  With an instance attached, each of the five properties reads
    back the value that was last written to it, and writing a property
    leaves the file list alone. *)
Theorem bridge_properties_round_trip b x (n : Z) (sigma thr : float)
  (gpu cmap : bool) :
  m_instance b = Some x ->
  fusionStrategy_get (setFusionStrategy n b) = n
  /\ outlierSigma_get (setOutlierSigma sigma b) = sigma
  /\ confidenceThreshold_get (setConfidenceThreshold thr b) = thr
  /\ useGPU_get (setUseGPU gpu b) = gpu
  /\ generateConfidenceMap_get (setGenerateConfidenceMap cmap b) = cmap
  /\ getFiles (setFusionStrategy n b) = getFiles b
  /\ getFiles (setOutlierSigma sigma b) = getFiles b
  /\ getFiles (setConfidenceThreshold thr b) = getFiles b
  /\ getFiles (setUseGPU gpu b) = getFiles b
  /\ getFiles (setGenerateConfidenceMap cmap b) = getFiles b.
Proof.
  intros Hx.
  unfold fusionStrategy_get, outlierSigma_get, confidenceThreshold_get,
    useGPU_get, generateConfidenceMap_get, getFiles, setFusionStrategy,
    setOutlierSigma, setConfidenceThreshold, setUseGPU,
    setGenerateConfidenceMap.
  rewrite Hx. cbn.
  destruct (p_fusionStrategy x =? n)%Z eqn:E; cbn; rewrite ?Hx;
    repeat split; try reflexivity.
  now apply Z.eqb_eq in E.
Qed.

(** X20.  With no instance attached, the readers answer the defaults (1,
    3.0f, 0.1f, true, true, no files), and no writer or file operation but
    [removeFile] changes the bridge or emits a signal. *)
Theorem bridge_without_instance b (n : Z) (sigma thr : float)
  (gpu cmap : bool) (paths : list string) (dir pre : string) :
  m_instance b = None ->
  (fusionStrategy_get b = 1
   /\ outlierSigma_get b = float_3_0
   /\ confidenceThreshold_get b = float_0_1
   /\ useGPU_get b = true
   /\ generateConfidenceMap_get b = true
   /\ getFiles b = [])
  /\ (setFusionStrategy n b = b
      /\ setOutlierSigma sigma b = b
      /\ setConfidenceThreshold thr b = b
      /\ setUseGPU gpu b = b
      /\ setGenerateConfidenceMap cmap b = b
      /\ addFiles paths b = b
      /\ clearFiles b = b
      /\ setOutputDirectory dir b = b
      /\ setOutputPrefix pre b = b).
Proof.
  intros Hx.
  unfold fusionStrategy_get, outlierSigma_get, confidenceThreshold_get,
    useGPU_get, generateConfidenceMap_get, getFiles, setFusionStrategy,
    setOutlierSigma, setConfidenceThreshold, setUseGPU,
    setGenerateConfidenceMap, addFiles, clearFiles, setOutputDirectory,
    setOutputPrefix.
  rewrite Hx. repeat split.
Qed.

(** X21.  [setFusionStrategy] notifies on change only: it emits
    [fusionStrategyChanged] when an instance is attached and the value
    differs from the current one, and nothing otherwise, so that writing the
    same value twice is the same as writing it once. *)
Theorem setFusionStrategy_notifies_on_change b (n : Z) :
  emitted (setFusionStrategy n b)
  = (emitted b
     ++ match m_instance b with
        | Some x =>
            if (p_fusionStrategy x =? n)%Z then [] else [fusionStrategyChanged]
        | None => []
        end)%list
  /\ setFusionStrategy n (setFusionStrategy n b) = setFusionStrategy n b.
Proof.
  unfold setFusionStrategy, emit_signal.
  destruct (m_instance b) as [x|] eqn:Hx; cbn.
  - destruct (p_fusionStrategy x =? n)%Z eqn:E; cbn.
    + rewrite Hx, E. cbn. now rewrite app_nil_r.
    + rewrite Z.eqb_refl. cbn. split; reflexivity.
  - rewrite Hx. now rewrite app_nil_r.
Qed.

(** X22.  With an instance attached, [addFiles] appends the paths, in
    order, to the list that [getFiles] returns, each path cut at its first
    NUL byte on the way in and on the way out, and emits [filesChanged] once
    for the whole batch; [clearFiles] empties the list; [removeFile] removes
    nothing. *)
Theorem addFiles_getFiles b x (paths : list string) (index : Z) :
  m_instance b = Some x ->
  getFiles (addFiles paths b)
  = (getFiles b
     ++ map (fun path => c_str (String_of_chars (c_str path))) paths)%list
  /\ emitted (addFiles paths b) = (emitted b ++ [filesChanged])%list
  /\ getFiles (clearFiles (addFiles paths b)) = []
  /\ getFiles (removeFile index b) = getFiles b.
Proof.
  intros Hx. unfold getFiles, addFiles, clearFiles, removeFile, emit_signal.
  rewrite Hx. cbn.
  rewrite (fold_AddInputFile (fun path => String_of_chars (c_str path))).
  rewrite map_app, map_map, ?Hx. repeat split.
Qed.

End BridgeFacts.

Section BridgeExecuteFacts.
Context {J V : Type} {libjulia : LibJulia J V}.
Context {float : Type} {cxx_float : CxxFloat float}.

(** X23.  [execute] on a bridge whose instance is attached while the
    runtime is not initialized reports the failure to the UI and stays away
    from Julia: it emits [executionComplete(false, "Processing failed")] and
    nothing else, keeps the instance, and makes no foreign call; with no
    instance attached it does nothing at all. *)
Theorem execute_not_initialized (b b0 : BayesianAstroBridge float)
  (x : BayesianAstroInstance float) (s : @Process J V PclHost) :
  m_instance b = Some x ->
  m_instance b0 = None ->
  m_initialized (this s) = false ->
  fst (execute b s)
  = mkBridge (Some x)
      (emitted b ++ [executionComplete false "Processing failed"])%list
  /\ trace (snd (execute b s)) = trace s
  /\ julia (snd (execute b s)) = julia s
  /\ execute b0 s = (b0, s).
Proof.
  intros Hx H0 Hinit. unfold execute. rewrite Hx, H0.
  unfold ExecuteGlobal, ExecuteGlobal_ProcessStack, ProcessStack,
    emit_signal.
  monad_unfold. cbn. rewrite Hinit. cbn. rewrite Hx. repeat split.
Qed.

End BridgeExecuteFacts.

(** * The fusion-strategy parameter *)

Lemma ElementId_out_of_range (i : Z) :
  BAFusionStrategy.NumberOfItems <= i -> BAFusionStrategy.ElementId i = "".
Proof.
  unfold BAFusionStrategy.ElementId, BAFusionStrategy.NumberOfItems,
    BAFusionStrategy.MLE, BAFusionStrategy.ConfidenceWeighted,
    BAFusionStrategy.Lucky, BAFusionStrategy.MultiScale.
  intros Hi.
  destruct (Z.eqb_spec i 0), (Z.eqb_spec i 1), (Z.eqb_spec i 2),
    (Z.eqb_spec i 3); try lia; reflexivity.
Qed.

Lemma index_cases (i : Z) :
  0 <= i ->
  i = 0 \/ i = 1 \/ i = 2 \/ i = 3 \/ BAFusionStrategy.NumberOfItems <= i.
Proof. unfold BAFusionStrategy.NumberOfItems. lia. Qed.

(** X24.  An index has an element identifier exactly when it is below
    [NumberOfItems], and the four identifiers are pairwise different. *)
Theorem ElementId_defined_in_range (i j : Z) :
  0 <= i -> 0 <= j ->
  (BAFusionStrategy.ElementId i <> "" <-> i < BAFusionStrategy.NumberOfItems)
  /\ (i < BAFusionStrategy.NumberOfItems ->
      BAFusionStrategy.ElementId i = BAFusionStrategy.ElementId j -> i = j).
Proof.
  intros Hi Hj. split.
  - destruct (index_cases i Hi) as [-> | [-> | [-> | [-> | Hout]]]].
    1-4: split; [intros _; reflexivity | intros _; discriminate].
    rewrite (ElementId_out_of_range i Hout). split.
    + intros Hne. now elim Hne.
    + intros Hlt. lia.
  - intros Hlt Heq.
    destruct (index_cases i Hi) as [-> | [-> | [-> | [-> | Hout]]]];
      [| | | | lia].
    all: destruct (index_cases j Hj) as [-> | [-> | [-> | [-> | Hj4]]]];
      try reflexivity; try discriminate Heq.
    all: rewrite (ElementId_out_of_range j Hj4) in Heq; discriminate Heq.
Qed.

(** * Concrete runs of the rest *)

#[local] Arguments Initialize : simpl never.

(** X2 on an interpreter that does not start. *)
Lemma Initialize_start_failure_witness :
  fst (Initialize (libjulia := Fake.api false []) "/usr/julia" (Fake.fresh tt))
  = false
  /\ trace (snd (Initialize (libjulia := Fake.api false []) "/usr/julia"
                            (Fake.fresh tt)))
     = [Ev_putenv "JULIA_HOME=/usr/julia"; Ev_jl_init; Ev_jl_is_initialized].
Proof.
  pose proof (Initialize_start_failure (libjulia := Fake.api false [])
                "/usr/julia" (Fake.fresh tt) eq_refl (fun _ => eq_refl)) as Hw.
  vm_compute in Hw. vm_compute. destruct Hw as [Hf _]. split; [exact Hf|].
  reflexivity.
Defined.


(** X4 on a ready runtime. *)
Lemma Shutdown_then_Initialize_restarts_witness :
  fst (IsInitialized (snd (Shutdown (libjulia := Fake.all_good)
                                    (Fake.ready tt)))) = false
  /\ filter is_teardown
       (trace (snd (Shutdown (libjulia := Fake.all_good) (Fake.ready tt))))
     = [Ev_jl_atexit_hook 0]
  /\ filter is_jl_init
       (trace (snd (Initialize (libjulia := Fake.all_good) ""
                      (snd (Shutdown (libjulia := Fake.all_good)
                                     (Fake.ready tt))))))
     = [Ev_jl_init; Ev_jl_init].
Proof.
  pose proof (Shutdown_then_Initialize_restarts (libjulia := Fake.all_good)
                "" (Fake.ready tt) eq_refl) as Hw.
  vm_compute in Hw. vm_compute. exact Hw.
Defined.

(** X7 on a ready runtime in which every command succeeds, and on one whose
    pipeline command raises. *)
Lemma ProcessStack_progress_protocol_witness :
  filter is_command_or_progress
    (trace (snd (ProcessStack (libjulia := Fake.all_good)
                   ["/data/f1.fits"] "/tmp/x" "run1" Fake.default_config
                   (Some Fake.log_progress) (Fake.ready Fake.no_calls))))
  = (filter is_command_or_progress (trace (Fake.ready Fake.no_calls))
     ++ [Ev_jl_eval_string (filesArrayCmd ["/data/f1.fits"]);
         Ev_jl_eval_string (configCmd Fake.default_config);
         Ev_progress 0 "Loading frames...";
         Ev_jl_eval_string (processCmd "/tmp/x" "run1" Fake.default_config);
         Ev_progress 100 "Complete"])%list
  /\ filter is_command_or_progress
       (trace (snd (ProcessStack (libjulia := Fake.pipeline_fails)
                      ["/data/f1.fits"] "/tmp/x" "run1" Fake.default_config
                      (Some Fake.log_progress) (Fake.ready Fake.no_calls))))
     = (filter is_command_or_progress (trace (Fake.ready Fake.no_calls))
        ++ [Ev_jl_eval_string (filesArrayCmd ["/data/f1.fits"]);
            Ev_jl_eval_string (configCmd Fake.default_config);
            Ev_progress 0 "Loading frames...";
            Ev_jl_eval_string
              (processCmd "/tmp/x" "run1" Fake.default_config)])%list.
Proof.
  pose proof (proj1 (ProcessStack_progress_protocol
                       (libjulia := Fake.all_good)
                       ["/data/f1.fits"] "/tmp/x" "run1" Fake.default_config
                       (Some Fake.log_progress) (Fake.ready Fake.no_calls)
                       eq_refl)) as Hgood.
  pose proof (proj1 (ProcessStack_progress_protocol
                       (libjulia := Fake.pipeline_fails)
                       ["/data/f1.fits"] "/tmp/x" "run1" Fake.default_config
                       (Some Fake.log_progress) (Fake.ready Fake.no_calls)
                       eq_refl)) as Hfail.
  vm_compute in Hgood, Hfail. vm_compute. split; [exact Hgood | exact Hfail].
Defined.

(** X8 on a ready runtime whose file-list command raises. *)
Lemma ProcessStack_marshalling_failure_witness :
  success (fst (ProcessStack (libjulia := Fake.api true ["String["])
                  ["/data/f1.fits"] "/tmp/x" "run1" Fake.default_config
                  (Some Fake.log_progress) (Fake.ready Fake.no_calls)))
  = false
  /\ errorMessage (fst (ProcessStack (libjulia := Fake.api true ["String["])
                          ["/data/f1.fits"] "/tmp/x" "run1"
                          Fake.default_config (Some Fake.log_progress)
                          (Fake.ready Fake.no_calls)))
     = "Failed to create input file list"
  /\ host (snd (ProcessStack (libjulia := Fake.api true ["String["])
                  ["/data/f1.fits"] "/tmp/x" "run1" Fake.default_config
                  (Some Fake.log_progress) (Fake.ready Fake.no_calls)))
     = [].
Proof.
  assert (Hraise :
    jl_exception_occurred (LibJulia := Fake.api true ["String["])
      (snd (jl_eval_string (LibJulia := Fake.api true ["String["])
              (c_str (filesArrayCmd ["/data/f1.fits"]))
              (julia (Fake.ready Fake.no_calls)))) <> None)
    by (vm_compute; discriminate).
  pose proof (proj1 (ProcessStack_marshalling_failure
                       (libjulia := Fake.api true ["String["])
                       ["/data/f1.fits"] "/tmp/x" "run1" Fake.default_config
                       (Some Fake.log_progress) (Fake.ready Fake.no_calls)
                       eq_refl) Hraise) as Hw.
  destruct Hw as (Hf & Hm & Hh & _).
  split; [exact Hf|]. split; [exact Hm | exact Hh].
Defined.

(** X9 on a fresh process and on a ready one whose FITS command raises. *)
Lemma ValidateFitsFile_false_when_unusable_witness :
  ValidateFitsFile (libjulia := Fake.api true ["try; FITS("]) "/data/f1.fits"
                   (Fake.fresh tt) = (false, Fake.fresh tt)
  /\ fst (ValidateFitsFile (libjulia := Fake.api true ["try; FITS("])
                           "/data/f1.fits" (Fake.ready tt)) = false
  /\ this (snd (ValidateFitsFile (libjulia := Fake.api true ["try; FITS("])
                                 "/data/f1.fits" (Fake.ready tt)))
     = this (Fake.ready tt).
Proof.
  apply (ValidateFitsFile_false_when_unusable
           (libjulia := Fake.api true ["try; FITS("]) "/data/f1.fits"
           (Fake.fresh tt) (Fake.ready tt) (Fake.ready tt)).
  - reflexivity.
  - reflexivity.
  - vm_compute. discriminate.
Defined.

(** X10 on two files that both validate. *)
Lemma ValidateInputFiles_checks_every_file_witness :
  fst (ValidateInputFiles
         (libjulia := FakeFits.api None FakeFits.valid_unless_bad)
         (Fake.instance_of 1 true) FakeFits.ready) = true
  /\ filter is_eval_string
       (trace (snd (ValidateInputFiles
                      (libjulia := FakeFits.api None FakeFits.valid_unless_bad)
                      (Fake.instance_of 1 true) FakeFits.ready)))
     = (filter is_eval_string (trace FakeFits.ready)
        ++ [Ev_jl_eval_string (validateCmd "/data/f1.fits");
            Ev_jl_eval_string (validateCmd "/data/f2.fits")])%list.
Proof.
  split; [reflexivity|].
  pose proof (ValidateInputFiles_checks_every_file
                (libjulia := FakeFits.api None FakeFits.valid_unless_bad)
                (Fake.instance_of 1 true) FakeFits.ready eq_refl eq_refl)
    as Hw.
  vm_compute in Hw. vm_compute. exact Hw.
Defined.

(** The loop leaves at the first file that does not validate: the second
    file is not looked at. *)
Lemma ValidateInputFiles_stops_at_first_invalid_run :
  ValidateInputFiles_loop
    (libjulia := FakeFits.api None FakeFits.valid_unless_bad)
    ["/bad/f1.fits"; "/data/f2.fits"] FakeFits.ready
  = (false,
     snd (ValidateFitsFile
            (libjulia := FakeFits.api None FakeFits.valid_unless_bad)
            "/bad/f1.fits" FakeFits.ready)).
Proof. vm_compute. reflexivity. Qed.

(** X11 on a fresh process. *)
Lemma ValidateInputFiles_not_initialized_witness :
  ValidateInputFiles (libjulia := Fake.all_good) (Fake.instance_of 1 true)
                     (Fake.fresh tt)
  = (false, Fake.fresh tt).
Proof.
  exact (ValidateInputFiles_not_initialized (libjulia := Fake.all_good)
           (Fake.instance_of 1 true) (Fake.fresh tt) eq_refl).
Defined.

(** X12 on a ready runtime whose dimension command raises. *)
Lemma GetImageDimensions_defaults_witness :
  fst (GetImageDimensions
         (libjulia := FakeFits.api None FakeFits.valid_unless_bad)
         "/data/f1.fits" FakeFits.ready) = Some (0, 0).
Proof.
  assert (Hraise :
    jl_exception_occurred
      (LibJulia := FakeFits.api None FakeFits.valid_unless_bad)
      (snd (jl_eval_string
              (LibJulia := FakeFits.api None FakeFits.valid_unless_bad)
              (c_str (dimensionsCmd "/data/f1.fits"))
              (julia FakeFits.ready))) <> None)
    by (vm_compute; discriminate).
  exact (proj1 (GetImageDimensions_defaults
                  (libjulia := FakeFits.api None FakeFits.valid_unless_bad)
                  "/data/f1.fits" FakeFits.ready
                  (or_intror (or_introl Hraise)))).
Defined.

(** X13 for a frame of 480 rows and 640 columns: the width is 640. *)
Lemma GetImageDimensions_width_is_second_field_witness :
  fst (GetImageDimensions
         (libjulia := FakeFits.api (Some (480, 640)) FakeFits.valid_unless_bad)
         "/data/f1.fits" FakeFits.ready) = Some (640, 480).
Proof.
  pose proof (GetImageDimensions_width_is_second_field
                (libjulia := FakeFits.api (Some (480, 640))
                                          FakeFits.valid_unless_bad)
                "/data/f1.fits" FakeFits.ready
                (FakeFits.VPair (FakeFits.VInt 480) (FakeFits.VInt 640))
                (FakeFits.VInt 480) (FakeFits.VInt 640)
                eq_refl eq_refl eq_refl eq_refl eq_refl eq_refl) as Hw.
  vm_compute in Hw. vm_compute. exact Hw.
Defined.

(** X14 on a ready runtime whose GPU query raises. *)
Lemma GetGPUInfo_follows_IsGPUAvailable_witness :
  fst (GetGPUInfo (libjulia := Fake.gpu_query_fails) (Fake.ready tt))
  = Some "No GPU available".
Proof.
  pose proof (GetGPUInfo_follows_IsGPUAvailable
                (libjulia := Fake.gpu_query_fails) (Fake.ready tt) eq_refl)
    as Hw.
  now rewrite Hw.
Defined.

(** On a ready runtime with a GPU whose name query does not yield a string,
    the answer is the other fallback. *)
Lemma GetGPUInfo_unavailable_run :
  fst (GetGPUInfo (libjulia := Fake.all_good) (Fake.ready tt))
  = Some "GPU info unavailable".
Proof. vm_compute. reflexivity. Qed.

(** X16 on a fresh process. *)
Lemma ExecuteGlobal_not_initialized_witness :
  fst (ExecuteGlobal (libjulia := Fake.all_good) (Fake.instance_of 1 true)
                     (Fake.fresh Fake.empty_host)) = false
  /\ console (host (snd (ExecuteGlobal (libjulia := Fake.all_good)
                           (Fake.instance_of 1 true)
                           (Fake.fresh Fake.empty_host))))
     = [WriteLn "<b>BayesianAstro</b>";
        WriteLn "Processing 2 frames...";
        CriticalLn "** Processing failed: Julia runtime not initialized"].
Proof.
  pose proof (ExecuteGlobal_not_initialized (libjulia := Fake.all_good)
                (Fake.instance_of 1 true) (Fake.fresh Fake.empty_host)
                eq_refl) as Hw.
  vm_compute in Hw. vm_compute.
  destruct Hw as (Hf & _ & _ & _ & Hc & _). split; [exact Hf | exact Hc].
Defined.

(** X18 on a fresh process whose interpreter starts and whose working
    directory cannot be determined, in the full-install mode. *)
Lemma InstallPixInsightModule_never_fails_witness :
  fst (InstallPixInsightModule (libjulia := Fake.all_good) 0 0 true
         (Fake.fresh (mkInstallHost [] []))) = 0
  /\ install_console
       (host (snd (InstallPixInsightModule (libjulia := Fake.all_good) 0 0
                     true (Fake.fresh (mkInstallHost [] [])))))
     = [WarningLn "** BayesianAstro: Julia initialization deferred"]
  /\ install_objects
       (host (snd (InstallPixInsightModule (libjulia := Fake.all_good) 0 0
                     true (Fake.fresh (mkInstallHost [] [])))))
     = [New_BayesianAstroModule; New_BayesianAstroProcess;
        New_BayesianAstroInterface]
  /\ m_initialized
       (this (snd (InstallPixInsightModule (libjulia := Fake.all_good) 0 0
                     true (Fake.fresh (mkInstallHost [] []))))) = false
  /\ trace (snd (InstallPixInsightModule (libjulia := Fake.all_good) 0 0
                   true (Fake.fresh (mkInstallHost [] []))))
     = [Ev_jl_init; Ev_jl_is_initialized].
Proof.
  pose proof (InstallPixInsightModule_never_fails
                (libjulia := Fake.all_good) 0 0 true
                (Fake.fresh (mkInstallHost [] []))) as Hw.
  destruct Hw as (Hret & Hobj & Hcon & Hthrow & _).
  specialize (Hthrow eq_refl eq_refl eq_refl eq_refl).
  destruct Hthrow as (Hinit & _ & Htrace).
  vm_compute in Hobj, Hcon. vm_compute in Htrace.
  split; [exact Hret|]. split; [vm_compute; exact Hcon|].
  split; [vm_compute; exact Hobj|]. split; [exact Hinit | exact Htrace].
Defined.

(** X19, X20 and X22 on a bridge with and without an instance. *)
Lemma bridge_properties_round_trip_witness :
  fusionStrategy_get
    (setFusionStrategy 3 (mkBridge (Some (Fake.instance_of 1 true)) [])) = 3
  /\ useGPU_get
       (setUseGPU false (mkBridge (Some (Fake.instance_of 1 true)) []))
     = false.
Proof.
  pose proof (bridge_properties_round_trip
                (mkBridge (Some (Fake.instance_of 1 true)) [])
                (Fake.instance_of 1 true) 3 Fake.F3 Fake.F0_1 false false
                eq_refl) as Hw.
  destruct Hw as (H1 & _ & _ & H4 & _). split; [exact H1 | exact H4].
Defined.

Lemma bridge_without_instance_witness :
  fusionStrategy_get (mkBridge (float := Fake.float) None []) = 1
  /\ addFiles ["/data/f1.fits"] (mkBridge (float := Fake.float) None [])
     = mkBridge None [].
Proof.
  pose proof (bridge_without_instance (mkBridge (float := Fake.float) None [])
                3 Fake.F3 Fake.F0_1 false false ["/data/f1.fits"] "/tmp/x"
                "run1" eq_refl) as Hw.
  destruct Hw as ((H1 & _) & (_ & _ & _ & _ & _ & H6 & _)).
  split; [exact H1 | exact H6].
Defined.

Lemma addFiles_getFiles_witness :
  getFiles (addFiles ["/data/f3.fits"]
              (mkBridge (Some (Fake.instance_of 1 true)) []))
  = ["/data/f1.fits"; "/data/f2.fits"; "/data/f3.fits"]
  /\ emitted (addFiles ["/data/f3.fits"]
                (mkBridge (Some (Fake.instance_of 1 true)) []))
     = [filesChanged].
Proof.
  pose proof (addFiles_getFiles
                (mkBridge (Some (Fake.instance_of 1 true)) [])
                (Fake.instance_of 1 true) ["/data/f3.fits"] 0 eq_refl) as Hw.
  vm_compute in Hw. vm_compute.
  destruct Hw as (H1 & H2 & _). split; [exact H1 | exact H2].
Defined.

(** X23 on a fresh process. *)
Lemma execute_not_initialized_witness :
  emitted (fst (execute (libjulia := Fake.all_good)
                  (mkBridge (Some (Fake.instance_of 1 true)) [])
                  (Fake.fresh Fake.empty_host)))
  = [executionComplete false "Processing failed"]
  /\ trace (snd (execute (libjulia := Fake.all_good)
                   (mkBridge (Some (Fake.instance_of 1 true)) [])
                   (Fake.fresh Fake.empty_host))) = [].
Proof.
  pose proof (execute_not_initialized (libjulia := Fake.all_good)
                (mkBridge (Some (Fake.instance_of 1 true)) [])
                (mkBridge None [])
                (Fake.instance_of 1 true) (Fake.fresh Fake.empty_host)
                eq_refl eq_refl eq_refl) as Hw.
  destruct Hw as (H1 & H2 & _). rewrite H1. split; [reflexivity | exact H2].
Defined.

(** X24 at the default index. *)
Lemma ElementId_defined_in_range_witness :
  (BAFusionStrategy.ElementId 1 <> "" <-> 1 < BAFusionStrategy.NumberOfItems)
  /\ (1 < BAFusionStrategy.NumberOfItems ->
      BAFusionStrategy.ElementId 1 = BAFusionStrategy.ElementId 1 -> 1 = 1).
Proof.
  apply (ElementId_defined_in_range 1 1); discriminate.
Defined.
